(** * Build and push orchestration against an image daemon

    A shallow embedding of [pkg/skaffold/docker/image.go]: [RunBuild],
    [streamDockerMessages], [RunPush] and [Digest].

    The three functions are sequences of calls to collaborators that live
    outside the file (the credential helper, the file system, the Dockerfile
    dependency parser, the archiver and the daemon client).  Each collaborator
    is a field of an interface record; it acts on an abstract state of the
    outside world.  Every call is recorded, with its arguments and its answer,
    in an append-only interaction trace, so that statements such as "no daemon
    call is made" or "the request carries exactly one tag" are statements
    about the trace. *)

From Stdlib Require Import ZArith List Ascii String Bool Lia.
From stdpp Require Import base option list strings gmap.

Local Open Scope string_scope.
Local Open Scope Z_scope.
Local Open Scope list_scope.

(** ** Go's [error] values

    A non-nil error is an [err]; the interface type [error], which may be
    nil, is [option err].  [withMessage] is what [errors.Wrap] builds. *)

Inductive err : Type :=
| errorString (msg : string)
| withMessage (cause : err) (msg : string).

Abbreviation error := (option err).

Fixpoint Error (e : err) : string :=
  match e with
  | errorString msg => msg
  | withMessage cause msg => msg +:+ ": " +:+ Error cause
  end.

Fixpoint Cause (e : err) : err :=
  match e with
  | errorString _ => e
  | withMessage cause _ => Cause cause
  end.

Module errors.

Definition New (msg : string) : error := Some (errorString msg).

(** [errors.Wrap(err, message)]: nil stays nil. *)
Definition Wrap (e : error) (message : string) : error :=
  match e with
  | None => None
  | Some c => Some (withMessage c message)
  end.

(** [errors.Wrapf(err, "getting auth config for %s", ref)]: the only format
    used in the file is a text followed by one [%s]. *)
Definition Wrapf (e : error) (format_prefix : string) (arg : string) : error :=
  Wrap e (format_prefix +:+ arg).

End errors.

(** ** The few library functions on strings the file uses *)

Module strings.

(** [s[n:]] *)
Fixpoint slice_from (n : nat) (s : string) : string :=
  match n, s with
  | O, _ => s
  | S n', String _ s' => slice_from n' s'
  | S _, EmptyString => EmptyString
  end.

(** [s[0:n]] *)
Fixpoint slice_to (n : nat) (s : string) : string :=
  match n, s with
  | O, _ => EmptyString
  | S n', String c s' => String c (slice_to n' s')
  | S _, EmptyString => EmptyString
  end.

(** [len(s) >= len(prefix) && s[0:len(prefix)] == prefix] *)
Definition HasPrefix (s prefix : string) : bool :=
  (String.length prefix <=? String.length s)%nat
  && String.eqb (slice_to (String.length prefix) s) prefix.

Definition TrimPrefix (s prefix : string) : string :=
  if HasPrefix s prefix then slice_from (String.length prefix) s else s.

End strings.

(** [fmt.Sprintf("%s:latest", ref)] *)
Definition Sprintf_latest (ref : string) : string := ref +:+ ":latest".

(** ** Types of the daemon API and of the archiver *)

(** An [io.Writer] is known by the name of the sink behind it. *)
Definition Writer : Type := string.

(** An opened file, as the reader the dependency parser consumes. *)
Definition File : Type := string.

Module jsonmessage.

(** Modelled from the spec: the decoded units of the daemon's event stream
    and the relay [DisplayJSONMessagesStream] belong to the vendored
    [jsonmessage] package, which is not among the sources.  A status event is
    "either a progress update (tagged with a stream id and human-readable
    text) or a terminal error (carries a message)". *)
Inductive JSONMessage : Type :=
| ProgressUpdate (stream_id : string) (text : string)
| TerminalError (message : string).

Definition is_progress (m : JSONMessage) : bool :=
  match m with
  | ProgressUpdate _ _ => true
  | TerminalError _ => false
  end.

End jsonmessage.

(** A response body ([io.ReadCloser]) is the sequence of events still to be
    read from it.  A read that fails, on a broken connection or a cancelled
    context, is not among them. *)
Definition EventStream : Type := list jsonmessage.JSONMessage.

Module idtools.
Record IDPair : Type := { UID : Z; GID : Z }.
End idtools.

Module archive.

(** The fields of [TarOptions] that [RunBuild] sets; all others keep their
    zero value.  [ChownOpts] is a pointer, hence the option. *)
Record TarOptions : Type :=
  { IncludeFiles : list string;
    ChownOpts : option idtools.IDPair }.

(** One member of a tar stream: its name and its owner. *)
Record Header : Type := { Name : string; Uid : Z; Gid : Z }.

End archive.

(** The build context archive, as the sequence of its members. *)
Definition Archive : Type := list archive.Header.

Module streamformatter.
Record ProgressOutput : Type := { out : Writer }.
Definition NewProgressOutput (w : Writer) : ProgressOutput := {| out := w |}.
End streamformatter.

Module progress.
(** [progress.NewProgressReader(in, out, size, id, action)] wraps a reader;
    the bytes read through it are those of [in].  What it reports to [out]
    while its reader is read happens inside the call that reads it and is not
    an event of the trace. *)
Record Reader : Type :=
  { in_ : Archive;
    out : streamformatter.ProgressOutput;
    size : Z;
    id : string;
    action : string }.
Definition NewProgressReader (i : Archive) (o : streamformatter.ProgressOutput)
    (sz : Z) (ident act : string) : Reader :=
  {| in_ := i; out := o; size := sz; id := ident; action := act |}.
End progress.

Module filters.
Record KeyValuePair : Type := { Key : string; Value : string }.

(** [filters.Args]: for each key, the set of values asked for. *)
Abbreviation Args := (gmap string (gset string)).

Definition Add (a : Args) (k v : string) : Args :=
  <[ k := {[ v ]} ∪ default ∅ (a !! k) ]> a.

Definition NewArgs (initialArgs : list KeyValuePair) : Args :=
  fold_left (fun a kv => Add a (Key kv) (Value kv)) initialArgs ∅.
End filters.

Module types.

Record AuthConfig : Type :=
  { Username : string; Password : string; RegistryToken : string }.

Record ImageBuildOptions : Type :=
  { Tags : list string;
    Dockerfile : string;
    BuildArgs : gmap string (option string);
    AuthConfigs : gmap string AuthConfig }.

Record ImagePushOptions : Type := { RegistryAuth : string }.

Record ImageListOptions : Type := { Filters : filters.Args }.

Record ImageSummary : Type := { ID : string; RepoTags : list string }.

Record ImageBuildResponse : Type := { Body : EventStream; OSType : string }.

End types.


(** ** The interaction trace *)

Inductive Event : Type :=
| EvGetAllAuthConfigs (ret : gmap string types.AuthConfig * error)
| EvOpen (name : string) (ret : File * error)
| EvGetDockerfileDependencies (workspace : string) (r : File)
    (ret : list string * error)
| EvTarWithOptions (srcPath : string) (options : archive.TarOptions)
    (ret : Archive * error)
| EvImageBuild (body : progress.Reader) (options : types.ImageBuildOptions)
    (ret : types.ImageBuildResponse * error)
| EvEncodedRegistryAuth (image : string) (ret : string * error)
| EvImagePush (ref : string) (options : types.ImagePushOptions)
    (ret : EventStream * error)
| EvImageList (options : types.ImageListOptions)
    (ret : list types.ImageSummary * error)
| EvWrite (dst : Writer) (rendered : jsonmessage.JSONMessage)
| EvClose (body : EventStream).

(** Every call made through the daemon client. *)
Definition is_daemon_call (e : Event) : bool :=
  match e with
  | EvImageBuild _ _ _ | EvImagePush _ _ _ | EvImageList _ _ => true
  | _ => false
  end.

(** What a sink has received, oldest first. *)
Fixpoint written_to (dst : Writer) (t : list Event) : list jsonmessage.JSONMessage :=
  match t with
  | [] => []
  | EvWrite d m :: t' =>
      if String.eqb d dst then m :: written_to dst t' else written_to dst t'
  | _ :: t' => written_to dst t'
  end.

(** ** The world and the monad of the orchestrator *)

Section Orchestrator.

(** The state of everything outside the process: daemon, registry
    credentials, file system. *)
Context {St : Type}.

Record World : Type := { ext : St; trace : list Event }.

Definition M (A : Type) : Type := World -> A * World.

#[local] Instance M_ret : MRet M := fun A a w => (a, w).

#[local] Instance M_bind : MBind M :=
  fun A B f m w => let '(a, w') := m w in f a w'.

(** A call to a collaborator: run it on the outside state and record the
    call with its answer. *)
Definition call {A : Type} (ev : A -> Event) (f : St -> A * St) : M A :=
  fun w =>
    let '(a, s) := f (ext w) in
    (a, {| ext := s; trace := trace w ++ [ev a] |}).

(** An effect of the process itself that has no answer. *)
Definition emit (e : Event) : M unit :=
  fun w => (tt, {| ext := ext w; trace := trace w ++ [e] |}).

(** The events a computation adds to the trace. *)
Definition events_of {A : Type} (m : M A) (w : World) : list Event :=
  drop (length (trace w)) (trace (snd (m w))).

(** ** Interfaces *)

(** [DockerAPIClient]; the [context.Context] argument carries cancellation
    only and is left out. *)
Record DockerAPIClient : Type :=
  { ImageBuild : progress.Reader -> types.ImageBuildOptions ->
                 St -> (types.ImageBuildResponse * error) * St;
    ImagePush : string -> types.ImagePushOptions ->
                St -> (EventStream * error) * St;
    ImageList : types.ImageListOptions ->
                St -> (list types.ImageSummary * error) * St }.

Record AuthConfigHelper : Type :=
  { GetAllAuthConfigs : St -> (gmap string types.AuthConfig * error) * St;
    GetAuthConfig : string -> St -> (types.AuthConfig * error) * St }.

(** The package-level functions and variables [image.go] refers to and does
    not define.  What a collaborator does on its own account, such as the
    calls [encodedRegistryAuth] may make through the client it is handed, is
    part of its transition on the outside state; the trace holds the calls
    [image.go] makes. *)
Record Package : Type :=
  { DefaultAuthHelper : AuthConfigHelper;
    filepath_Join : string -> string -> string;
    os_Open : string -> St -> (File * error) * St;
    GetDockerfileDependencies :
      string -> File -> St -> (list string * error) * St;
    TarWithOptions :
      string -> archive.TarOptions -> St -> (Archive * error) * St;
    encodedRegistryAuth :
      DockerAPIClient -> AuthConfigHelper -> string ->
      St -> (string * error) * St;
    GetFdInfo : Writer -> Z * bool }.

Variable pkg : Package.

(** ** The relay *)

(** Modelled from the spec: [jsonmessage.DisplayJSONMessagesStream] is
    vendored code outside the sources.  It "consumes the ordered daemon event
    stream and renders each progress update to the build-log sink in arrival
    order"; on a terminal error event it "stops consuming further input and
    returns that error"; "end-of-stream with no error event is success".  The
    callback argument is always nil in [image.go] and is left out. *)
Fixpoint DisplayJSONMessagesStream (src : EventStream) (dst : Writer)
    (terminalFd : Z) (isTerminal : bool) : M error :=
  match src with
  | [] => mret None
  | jsonmessage.TerminalError message :: _ => mret (errors.New message)
  | (jsonmessage.ProgressUpdate _ _ as jm) :: rest =>
      emit (EvWrite dst jm) ≫= fun _ =>
      DisplayJSONMessagesStream rest dst terminalFd isTerminal
  end.

(** ** image.go *)

Record BuildOptions : Type :=
  { ImageName : string;
    Dockerfile : string;
    ContextDir : string;
    ProgressBuf : Writer;
    BuildBuf : Writer;
    BuildArgs : gmap string (option string) }.

Definition streamDockerMessages (dst : Writer) (src : EventStream) : M error :=
  let '(fd, _) := GetFdInfo pkg dst in
  DisplayJSONMessagesStream src dst fd false.

(** [RunBuild].  The debug log line at its head has no effect on what
    follows.  [defer resp.Body.Close()] runs once the result of
    [streamDockerMessages] is known. *)
Definition RunBuild (cli : DockerAPIClient) (opts : BuildOptions) : M error :=
  '(authConfigs, err) ←
    call EvGetAllAuthConfigs (GetAllAuthConfigs (DefaultAuthHelper pkg));
  if err is Some _ then mret (errors.Wrap err "read auth configs") else
  let imageBuildOpts :=
    {| types.Tags := [ImageName opts];
       types.Dockerfile := Dockerfile opts;
       types.BuildArgs := BuildArgs opts;
       types.AuthConfigs := authConfigs |} in
  let dockerfilePath := filepath_Join pkg (ContextDir opts) (Dockerfile opts) in
  '(f, err) ← call (EvOpen dockerfilePath) (os_Open pkg dockerfilePath);
  if err is Some _ then mret (errors.Wrap err "opening dockerfile") else
  '(paths, err) ←
    call (EvGetDockerfileDependencies (ContextDir opts) f)
         (GetDockerfileDependencies pkg (ContextDir opts) f);
  let paths :=
    map (fun path => strings.TrimPrefix path (ContextDir opts)) paths in
  let tarOpts :=
    {| archive.ChownOpts := Some {| idtools.UID := 0; idtools.GID := 0 |};
       archive.IncludeFiles := paths ++ [Dockerfile opts] |} in
  '(buildCtx, err) ←
    call (EvTarWithOptions (ContextDir opts) tarOpts)
         (TarWithOptions pkg (ContextDir opts) tarOpts);
  if err is Some _ then mret (errors.Wrap err "tar workspace") else
  let progressOutput := streamformatter.NewProgressOutput (ProgressBuf opts) in
  let body :=
    progress.NewProgressReader buildCtx progressOutput 0 ""
      "Sending build context to Docker daemon" in
  '(resp, err) ←
    call (EvImageBuild body imageBuildOpts) (ImageBuild cli body imageBuildOpts);
  if err is Some _ then mret (errors.Wrap err "docker build") else
  result ← streamDockerMessages (BuildBuf opts) (types.Body resp);
  emit (EvClose (types.Body resp)) ≫= fun _ =>
  mret result.

Definition RunPush (cli : DockerAPIClient) (ref : string) (out : Writer) : M error :=
  '(registryAuth, err) ←
    call (EvEncodedRegistryAuth ref)
         (encodedRegistryAuth pkg cli (DefaultAuthHelper pkg) ref);
  if err is Some _ then
    mret (errors.Wrapf err "getting auth config for " ref) else
  '(rc, err) ←
    call (EvImagePush ref {| types.RegistryAuth := registryAuth |})
         (ImagePush cli ref {| types.RegistryAuth := registryAuth |});
  if err is Some _ then mret (errors.Wrap err "pushing image to repository") else
  result ← streamDockerMessages out rc;
  emit (EvClose rc) ≫= fun _ =>
  mret result.

(** The two nested loops of [Digest]: the identifier of the first image, in
    list order, one of whose repo tags is [refLatest]. *)
Fixpoint scan_tags (tags : list string) (refLatest : string) : bool :=
  match tags with
  | [] => false
  | tag :: rest => if String.eqb tag refLatest then true else scan_tags rest refLatest
  end.

Fixpoint scan_images (imageList : list types.ImageSummary) (refLatest : string)
    : option string :=
  match imageList with
  | [] => None
  | image :: rest =>
      if scan_tags (types.RepoTags image) refLatest
      then Some (types.ID image)
      else scan_images rest refLatest
  end.

Definition Digest (cli : DockerAPIClient) (ref : string) : M (string * error) :=
  let refLatest := Sprintf_latest ref in
  let args := {| filters.Key := "reference"; filters.Value := refLatest |} in
  let filters := filters.NewArgs [args] in
  let listOpts := {| types.Filters := filters |} in
  '(imageList, err) ← call (EvImageList listOpts) (ImageList cli listOpts);
  if err is Some _ then mret ("", errors.Wrap err "getting image id") else
  match scan_images imageList refLatest with
  | Some image_id => mret (image_id, None)
  | None => mret ("", None)
  end.

End Orchestrator.

Arguments World : clear implicits.
Arguments M : clear implicits.
Arguments DockerAPIClient : clear implicits.
Arguments AuthConfigHelper : clear implicits.
Arguments Package : clear implicits.

(** ** Notions the claims are stated with *)

(** An absolute path that is neither the context directory nor below it. *)
Definition resolves_outside (contextDir path : string) : bool :=
  strings.HasPrefix path "/"
  && negb (String.eqb path contextDir)
  && negb (strings.HasPrefix path (contextDir +:+ "/")).

(** The number of colons after the last slash of a reference.  A repo tag
    of an image index reads [repository:tag]: the repository may hold a
    colon only in a registry host, before a slash, and a tag holds neither
    colon nor slash; so a repo tag has exactly one colon after its last
    slash, and a reference carries a tag when it has at least one. *)
Fixpoint colons_after_last_slash_from (n : nat) (s : string) : nat :=
  match s with
  | EmptyString => n
  | String c s' =>
      if Ascii.eqb c "/" then colons_after_last_slash_from 0 s'
      else if Ascii.eqb c ":" then colons_after_last_slash_from (S n) s'
      else colons_after_last_slash_from n s'
  end.

Definition colons_after_last_slash (s : string) : nat :=
  colons_after_last_slash_from 0 s.

Definition carries_tag (ref : string) : bool :=
  (1 <=? colons_after_last_slash ref)%nat.

Definition well_formed_repo_tag (t : string) : bool :=
  (colons_after_last_slash t =? 1)%nat.

Definition image_carries (tag : string) (image : types.ImageSummary) : Prop :=
  In tag (types.RepoTags image).

(** The list request [Digest] sends for a reference. *)
Definition digest_query (ref : string) : types.ImageListOptions :=
  {| types.Filters := {[ "reference" := {[ ref +:+ ":latest" ]} ]} |}.

(** ** A test double of the outside world

    The state of the double is a fixture that no call changes.  Its archiver
    follows the vendored one: an include is looked up below the source
    directory, an include that is not there is skipped without an error, and
    a member takes its owner from [ChownOpts] when that is set. *)

Module fake.

Record Fixture : Type :=
  { auth_configs : gmap string types.AuthConfig * error;
    context_dir : string;
    files : list (string * idtools.IDPair);
    dependencies : list string * error;
    build_answer : types.ImageBuildResponse * error;
    registry_auth : string * error;
    push_answer : EventStream * error;
    images : list types.ImageSummary;
    list_error : error }.

Definition join (dir name : string) : string := dir +:+ "/" +:+ name.

Definition lookup_file (fx : Fixture) (name : string) : option idtools.IDPair :=
  snd <$> List.find (fun f => String.eqb (fst f) name) (files fx).

Definition open (name : string) (fx : Fixture) : (File * error) * Fixture :=
  if existsb (fun f => String.eqb (join (context_dir fx) (fst f)) name) (files fx)
  then (("FROM scratch", None), fx)
  else (("", errors.New "no such file or directory"), fx).

Definition member (options : archive.TarOptions) (fx : Fixture)
    (include : string) : option archive.Header :=
  let name := strings.TrimPrefix include "/" in
  match lookup_file fx name with
  | None => None
  | Some host_owner =>
      let owner := default host_owner (archive.ChownOpts options) in
      Some {| archive.Name := name;
              archive.Uid := idtools.UID owner;
              archive.Gid := idtools.GID owner |}
  end.

Definition tar (srcPath : string) (options : archive.TarOptions) (fx : Fixture)
    : (Archive * error) * Fixture :=
  if String.eqb srcPath (context_dir fx)
  then ((omap (member options fx) (archive.IncludeFiles options), None), fx)
  else (([], errors.New "no such file or directory"), fx).

Definition reference_matches (args : filters.Args) (image : types.ImageSummary)
    : bool :=
  match args !! "reference" with
  | None => true
  | Some values => existsb (fun t => bool_decide (t ∈ values)) (types.RepoTags image)
  end.

Definition image_list (options : types.ImageListOptions) (fx : Fixture)
    : (list types.ImageSummary * error) * Fixture :=
  match list_error fx with
  | Some e => (([], Some e), fx)
  | None =>
      ((List.filter (reference_matches (types.Filters options)) (images fx), None), fx)
  end.

Definition cli : DockerAPIClient Fixture :=
  {| ImageBuild := fun _ _ fx => (build_answer fx, fx);
     ImagePush := fun _ _ fx => (push_answer fx, fx);
     ImageList := image_list |}.

Definition helper : AuthConfigHelper Fixture :=
  {| GetAllAuthConfigs := fun fx => (auth_configs fx, fx);
     GetAuthConfig := fun _ fx =>
       (({| types.Username := ""; types.Password := ""; types.RegistryToken := "" |},
         snd (registry_auth fx)), fx) |}.

Definition pkg : Package Fixture :=
  {| DefaultAuthHelper := helper;
     filepath_Join := join;
     os_Open := open;
     GetDockerfileDependencies := fun _ _ fx => (dependencies fx, fx);
     TarWithOptions := tar;
     encodedRegistryAuth := fun _ _ _ fx => (registry_auth fx, fx);
     GetFdInfo := fun _ => (0, false) |}.

Definition start (fx : Fixture) : World Fixture := {| ext := fx; trace := [] |}.

Definition root : idtools.IDPair := {| idtools.UID := 0; idtools.GID := 0 |}.
Definition alice : idtools.IDPair := {| idtools.UID := 1000; idtools.GID := 1000 |}.

Definition ok_stream : EventStream :=
  [jsonmessage.ProgressUpdate "" "Step 1/1 : FROM scratch";
   jsonmessage.ProgressUpdate "" "Successfully built 0123abcd"].

Definition failing_stream : EventStream :=
  [jsonmessage.ProgressUpdate "" "Step 1/2 : FROM scratch";
   jsonmessage.ProgressUpdate "" "Step 2/2 : COPY main.go /";
   jsonmessage.TerminalError "COPY failed: no such file";
   jsonmessage.ProgressUpdate "" "never read"].

(** A workspace in which everything works. *)
Definition healthy : Fixture :=
  {| auth_configs := (∅, None);
     context_dir := "/workspace";
     files := [("Dockerfile", alice); ("main.go", alice); ("go.mod", alice)];
     dependencies := (["/workspace/main.go"; "/workspace/go.mod"], None);
     build_answer := ({| types.Body := ok_stream; types.OSType := "linux" |}, None);
     registry_auth := ("e30=", None);
     push_answer := (ok_stream, None);
     images :=
       [ {| types.ID := "sha256:1111"; types.RepoTags := ["other:latest"] |};
         {| types.ID := "sha256:2222"; types.RepoTags := ["myimage:v1"; "myimage:latest"] |};
         {| types.ID := "sha256:3333"; types.RepoTags := ["myimage:v2"] |} ];
     list_error := None |}.

Definition opts : BuildOptions :=
  {| ImageName := "myimage";
     Dockerfile := "Dockerfile";
     ContextDir := "/workspace";
     ProgressBuf := "progress";
     BuildBuf := "build";
     BuildArgs := {[ "VERSION" := Some "1.0"; "HTTP_PROXY" := None ]} |}.

Definition credential_store_down : err :=
  errorString "error getting credentials: store unreachable".

(** The credential store cannot be reached. *)
Definition without_credentials (fx : Fixture) : Fixture :=
  {| auth_configs := (∅, Some credential_store_down);
     context_dir := context_dir fx;
     files := files fx;
     dependencies := dependencies fx;
     build_answer := build_answer fx;
     registry_auth := ("", Some credential_store_down);
     push_answer := push_answer fx;
     images := images fx;
     list_error := list_error fx |}.

(** The dependency parser answers [deps]. *)
Definition with_dependencies (deps : list string * error) (fx : Fixture) : Fixture :=
  {| auth_configs := auth_configs fx;
     context_dir := context_dir fx;
     files := files fx;
     dependencies := deps;
     build_answer := build_answer fx;
     registry_auth := registry_auth fx;
     push_answer := push_answer fx;
     images := images fx;
     list_error := list_error fx |}.

(** The daemon accepts the build and the push and streams [events]. *)
Definition with_stream (events : EventStream) (fx : Fixture) : Fixture :=
  {| auth_configs := auth_configs fx;
     context_dir := context_dir fx;
     files := files fx;
     dependencies := dependencies fx;
     build_answer := ({| types.Body := events; types.OSType := "linux" |}, None);
     registry_auth := registry_auth fx;
     push_answer := (events, None);
     images := images fx;
     list_error := list_error fx |}.

(** The daemon holds the index [index] and answers list queries with [e]. *)
Definition with_index (index : list types.ImageSummary) (e : error) (fx : Fixture)
    : Fixture :=
  {| auth_configs := auth_configs fx;
     context_dir := context_dir fx;
     files := files fx;
     dependencies := dependencies fx;
     build_answer := build_answer fx;
     registry_auth := registry_auth fx;
     push_answer := push_answer fx;
     images := index;
     list_error := e |}.

(** The parser fails on the Dockerfile. *)
Definition broken_parser : Fixture :=
  with_dependencies ([], Some (errorString "parsing dockerfile: unknown instruction"))
    healthy.

(** The parser lists a file that is nowhere near the workspace. *)
Definition outside_path : Fixture :=
  with_dependencies (["/etc/passwd"; "/workspace/main.go"], None) healthy.

(** A build from the current directory, whose Dockerfile copies [.env];
    the directory also holds an unrelated file [env]. *)
Definition dot_context : Fixture :=
  {| auth_configs := (∅, None);
     context_dir := ".";
     files := [("Dockerfile", alice); (".env", alice); ("env", alice)];
     dependencies := ([".env"], None);
     build_answer := ({| types.Body := ok_stream; types.OSType := "linux" |}, None);
     registry_auth := ("e30=", None);
     push_answer := (ok_stream, None);
     images := [];
     list_error := None |}.

Definition dot_opts : BuildOptions :=
  {| ImageName := "myimage";
     Dockerfile := "Dockerfile";
     ContextDir := ".";
     ProgressBuf := "progress";
     BuildBuf := "build";
     BuildArgs := ∅ |}.

Definition daemon_down : err := errorString "Cannot connect to the Docker daemon".

(** A client whose list query hands back the whole index, whatever the
    filter. *)
Definition unfiltered_cli : DockerAPIClient Fixture :=
  {| ImageBuild := fun _ _ fx => (build_answer fx, fx);
     ImagePush := fun _ _ fx => (push_answer fx, fx);
     ImageList := fun _ fx =>
       match list_error fx with
       | Some e => (([], Some e), fx)
       | None => ((images fx, None), fx)
       end |}.

(** The archive the double's archiver makes of the healthy workspace. *)
Definition healthy_archive : Archive :=
  [ {| archive.Name := "main.go"; archive.Uid := 0; archive.Gid := 0 |};
    {| archive.Name := "go.mod"; archive.Uid := 0; archive.Gid := 0 |};
    {| archive.Name := "Dockerfile"; archive.Uid := 0; archive.Gid := 0 |} ].

End fake.

(** ** What the relay does to a stream, as two functions of the stream *)

(** The progress updates in front of the first terminal error. *)
Fixpoint rendered_prefix (src : EventStream) : list jsonmessage.JSONMessage :=
  match src with
  | (jsonmessage.ProgressUpdate _ _ as jm) :: rest => jm :: rendered_prefix rest
  | _ => []
  end.

(** The first terminal error, nil when the stream has none. *)
Fixpoint first_error (src : EventStream) : error :=
  match src with
  | [] => None
  | jsonmessage.TerminalError message :: _ => errors.New message
  | jsonmessage.ProgressUpdate _ _ :: rest => first_error rest
  end.

(** ** The runs of [RunBuild]

    [build_run pkg opts result events]: a run that returns [result] after
    the calls [events].  There is one constructor per [return] of the
    function. *)

Section Runs.
Context {St : Type} (pkg : Package St) (opts : BuildOptions).

Definition dockerfilePath : string :=
  filepath_Join pkg (ContextDir opts) (Dockerfile opts).

Definition tar_request (paths : list string) : archive.TarOptions :=
  {| archive.IncludeFiles :=
       map (fun path => strings.TrimPrefix path (ContextDir opts)) paths
       ++ [Dockerfile opts];
     archive.ChownOpts := Some {| idtools.UID := 0; idtools.GID := 0 |} |}.

Definition build_request (authConfigs : gmap string types.AuthConfig)
    : types.ImageBuildOptions :=
  {| types.Tags := [ImageName opts];
     types.Dockerfile := Dockerfile opts;
     types.BuildArgs := BuildArgs opts;
     types.AuthConfigs := authConfigs |}.

Definition build_body (buildCtx : Archive) : progress.Reader :=
  progress.NewProgressReader buildCtx
    (streamformatter.NewProgressOutput (ProgressBuf opts)) 0 ""
    "Sending build context to Docker daemon".

Inductive build_run : error -> list Event -> Prop :=
| run_auth_failed authConfigs e :
    build_run (errors.Wrap (Some e) "read auth configs")
      [EvGetAllAuthConfigs (authConfigs, Some e)]
| run_open_failed authConfigs f e :
    build_run (errors.Wrap (Some e) "opening dockerfile")
      [EvGetAllAuthConfigs (authConfigs, None);
       EvOpen dockerfilePath (f, Some e)]
| run_tar_failed authConfigs f paths dep_err buildCtx e :
    build_run (errors.Wrap (Some e) "tar workspace")
      [EvGetAllAuthConfigs (authConfigs, None);
       EvOpen dockerfilePath (f, None);
       EvGetDockerfileDependencies (ContextDir opts) f (paths, dep_err);
       EvTarWithOptions (ContextDir opts) (tar_request paths) (buildCtx, Some e)]
| run_build_refused authConfigs f paths dep_err buildCtx resp e :
    build_run (errors.Wrap (Some e) "docker build")
      [EvGetAllAuthConfigs (authConfigs, None);
       EvOpen dockerfilePath (f, None);
       EvGetDockerfileDependencies (ContextDir opts) f (paths, dep_err);
       EvTarWithOptions (ContextDir opts) (tar_request paths) (buildCtx, None);
       EvImageBuild (build_body buildCtx) (build_request authConfigs) (resp, Some e)]
| run_streamed authConfigs f paths dep_err buildCtx resp :
    build_run (first_error (types.Body resp))
      ([EvGetAllAuthConfigs (authConfigs, None);
        EvOpen dockerfilePath (f, None);
        EvGetDockerfileDependencies (ContextDir opts) f (paths, dep_err);
        EvTarWithOptions (ContextDir opts) (tar_request paths) (buildCtx, None);
        EvImageBuild (build_body buildCtx) (build_request authConfigs) (resp, None)]
       ++ map (EvWrite (BuildBuf opts)) (rendered_prefix (types.Body resp))
       ++ [EvClose (types.Body resp)]).

End Runs.

(** The archives and the options of the build requests in a trace. *)
Definition builds_sent (t : list Event) : list (Archive * types.ImageBuildOptions) :=
  omap (fun e =>
          match e with
          | EvImageBuild body options _ => Some (progress.in_ body, options)
          | _ => None
          end) t.

(** The requests made to the archiver in a trace. *)
Definition archiver_requests (t : list Event) : list (string * archive.TarOptions) :=
  omap (fun e =>
          match e with
          | EvTarWithOptions srcPath options _ => Some (srcPath, options)
          | _ => None
          end) t.

(** ** More projections of a trace *)

(** The error a call answered with; nil for an event that is not a call. *)
Definition error_of (e : Event) : error :=
  match e with
  | EvGetAllAuthConfigs ret => snd ret
  | EvOpen _ ret => snd ret
  | EvGetDockerfileDependencies _ _ ret => snd ret
  | EvTarWithOptions _ _ ret => snd ret
  | EvImageBuild _ _ ret => snd ret
  | EvEncodedRegistryAuth _ ret => snd ret
  | EvImagePush _ _ ret => snd ret
  | EvImageList _ ret => snd ret
  | EvWrite _ _ | EvClose _ => None
  end.

(** The message [image.go] wraps the error of a call with, call by call.
    The dependency parser has none. *)
Definition step_of (e : Event) : option string :=
  match e with
  | EvGetAllAuthConfigs _ => Some "read auth configs"
  | EvOpen _ _ => Some "opening dockerfile"
  | EvTarWithOptions _ _ _ => Some "tar workspace"
  | EvImageBuild _ _ _ => Some "docker build"
  | EvEncodedRegistryAuth image _ => Some ("getting auth config for " +:+ image)
  | EvImagePush _ _ _ => Some "pushing image to repository"
  | EvImageList _ _ => Some "getting image id"
  | EvGetDockerfileDependencies _ _ _ | EvWrite _ _ | EvClose _ => None
  end.

Definition is_parser_call (e : Event) : bool :=
  match e with
  | EvGetDockerfileDependencies _ _ _ => true
  | _ => false
  end.

(** The streams the daemon handed out: the bodies of the accepted builds
    and pushes. *)
Definition streams_opened (t : list Event) : list EventStream :=
  omap (fun e =>
          match e with
          | EvImageBuild _ _ (resp, None) => Some (types.Body resp)
          | EvImagePush _ _ (rc, None) => Some rc
          | _ => None
          end) t.

(** The streams that were closed. *)
Definition streams_closed (t : list Event) : list EventStream :=
  omap (fun e => match e with EvClose body => Some body | _ => None end) t.

(** Everything written, to whichever sink. *)
Definition writes (t : list Event) : list (Writer * jsonmessage.JSONMessage) :=
  omap (fun e => match e with EvWrite dst jm => Some (dst, jm) | _ => None end) t.

(** The push requests in a trace. *)
Definition pushes_sent (t : list Event) : list (string * types.ImagePushOptions) :=
  omap (fun e =>
          match e with
          | EvImagePush ref options _ => Some (ref, options)
          | _ => None
          end) t.

(** The inner loop of [Digest] as a test on an image. *)
Definition has_tag (refLatest : string) (image : types.ImageSummary) : bool :=
  scan_tags (types.RepoTags image) refLatest.

(** ** More scenarios for the test double *)

Module scenario.

(** Build options that name a Dockerfile the healthy workspace lacks. *)
Definition missing_dockerfile : BuildOptions :=
  {| ImageName := "myimage";
     Dockerfile := "Dockerfile.dev";
     ContextDir := "/workspace";
     ProgressBuf := "progress";
     BuildBuf := "build";
     BuildArgs := ∅ |}.

Definition invalid_reference : err :=
  errorString "Error response from daemon: invalid reference format".

Definition access_denied : err :=
  errorString "denied: requested access to the resource is denied".

(** The daemon refuses the build and the push outright. *)
Definition refusing : fake.Fixture :=
  {| fake.auth_configs := (∅, None);
     fake.context_dir := "/workspace";
     fake.files := [("Dockerfile", fake.alice); ("main.go", fake.alice)];
     fake.dependencies := (["/workspace/main.go"], None);
     fake.build_answer :=
       ({| types.Body := []; types.OSType := "" |}, Some invalid_reference);
     fake.registry_auth := ("e30=", None);
     fake.push_answer := ([], Some access_denied);
     fake.images := [];
     fake.list_error := None |}.

(** One credential, for one registry. *)
Definition gcr_credentials : gmap string types.AuthConfig :=
  {[ "gcr.io" := {| types.Username := "_json_key";
                    types.Password := "secret";
                    types.RegistryToken := "" |} ]}.

Definition with_credentials : fake.Fixture :=
  {| fake.auth_configs := (gcr_credentials, None);
     fake.context_dir := "/workspace";
     fake.files := [("Dockerfile", fake.alice); ("main.go", fake.alice)];
     fake.dependencies := (["/workspace/main.go"; "vendor/lib.go"], None);
     fake.build_answer :=
       ({| types.Body := fake.ok_stream; types.OSType := "linux" |}, None);
     fake.registry_auth := ("eyJ1c2VybmFtZSI6Il9qc29uX2tleSJ9", None);
     fake.push_answer := (fake.ok_stream, None);
     fake.images := [];
     fake.list_error := None |}.

(** Two orders of one index, in which a single image carries
    [web:latest]. *)
Definition web : types.ImageSummary :=
  {| types.ID := "sha256:aaaa"; types.RepoTags := ["web:v3"; "web:latest"] |}.
Definition db : types.ImageSummary :=
  {| types.ID := "sha256:bbbb"; types.RepoTags := ["db:latest"] |}.
Definition old_web : types.ImageSummary :=
  {| types.ID := "sha256:cccc"; types.RepoTags := ["web:v2"] |}.

(** The healthy workspace, with a Dockerfile that also lists a file of the
    directory next to it, [/workspace-common]. *)
Definition sibling_directory : fake.Fixture :=
  fake.with_dependencies
    (["/workspace/main.go"; "/workspace-common/util.go"], None) fake.healthy.

End scenario.

(** ** The proto generation script

    The shell script that regenerates the proto files.  What the shell
    script leaves to its environment is a record of functions on the state of
    the outside world: the expansion of a word into fields, [cd], [docker],
    the opening of a redirection target (which creates or truncates it) and
    [printf].  A run yields the exit status of the script and the commands
    run with their statuses. *)

Module sh.

Inductive Event : Type :=
| Cd (fields : list string) (status : Z)
| Docker (args : list string) (stdout : option string) (status : Z)
| Redirect (path : string) (opened : bool)
| Printf (format : string) (status : Z).

Record Host (St : Type) : Type :=
  { expand : string -> St -> list string;
    cd : list string -> St -> Z * St;
    docker : list string -> option string -> St -> Z * St;
    redirect : string -> St -> bool * St;
    printf : string -> St -> Z * St }.

Arguments expand {St}.
Arguments cd {St}.
Arguments docker {St}.
Arguments redirect {St}.
Arguments printf {St}.

(** [export CONTAINER_NAME=generate-proto] *)
Definition CONTAINER_NAME : string := "generate-proto".

Definition build_args : list string :=
  ["build"; "-t"; CONTAINER_NAME; "-f"; "hack/proto/Dockerfile";
   "--target"; "generateFiles"; "proto"].

Definition run_args (file : string) : list string :=
  ["run"; CONTAINER_NAME; "cat"; file].

(** The script.  Up to [set -e] the status of a command is looked at only
    where the script tests [$?]; after it, a command that fails ends the
    script with its status, and a redirection that cannot be opened fails the
    command, with status 1, before it runs. *)
Definition generate_proto {St : Type} (h : Host St) (s : St)
    : Z * list Event * St :=
  let fields := expand h "$GOPATH/src/github.com/GoogleContainerTools/skaffold" s in
  let '(cd_status, s) := cd h fields s in
  let t := [Cd fields cd_status] in
  let '(status, s) := docker h build_args None s in
  let t := t ++ [Docker build_args None status] in
  if negb (status =? 0) then
    let '(printed, s) := printf h "\nError generating files.\n" s in
    (1, t ++ [Printf "\nError generating files.\n" printed], s)
  else
  let '(opened, s) := redirect h "proto/skaffold.pb.go" s in
  let t := t ++ [Redirect "proto/skaffold.pb.go" opened] in
  if negb opened then (1, t, s) else
  let '(status, s) :=
    docker h (run_args "/proto/skaffold.pb.go") (Some "proto/skaffold.pb.go") s in
  let t := t ++ [Docker (run_args "/proto/skaffold.pb.go")
                   (Some "proto/skaffold.pb.go") status] in
  if negb (status =? 0) then (status, t, s) else
  let '(opened, s) := redirect h "proto/skaffold.pb.gw.go" s in
  let t := t ++ [Redirect "proto/skaffold.pb.gw.go" opened] in
  if negb opened then (1, t, s) else
  let '(status, s) :=
    docker h (run_args "/proto/skaffold.pb.gw.go") (Some "proto/skaffold.pb.gw.go") s in
  let t := t ++ [Docker (run_args "/proto/skaffold.pb.gw.go")
                   (Some "proto/skaffold.pb.gw.go") status] in
  if negb (status =? 0) then (status, t, s) else
  let '(printed, s) :=
    printf h "\nFinished generating proto files, please commit the results.\n" s in
  (printed,
   t ++ [Printf "\nFinished generating proto files, please commit the results.\n"
           printed],
   s).

Definition exit_status {St : Type} (h : Host St) (s : St) : Z :=
  fst (fst (generate_proto h s)).

Definition commands {St : Type} (h : Host St) (s : St) : list Event :=
  snd (fst (generate_proto h s)).

(** The host [h], but for the status [cd] returns. *)
Definition with_cd_status {St : Type} (status : Z) (h : Host St) : Host St :=
  {| expand := expand h;
     cd := fun fields s => (status, snd (cd h fields s));
     docker := docker h;
     redirect := redirect h;
     printf := printf h |}.

(** A host for examples: its state is the statuses the coming [docker]
    commands will return; [cd] fails, every redirection opens and [printf]
    succeeds. *)
Definition scripted : Host (list Z) :=
  {| expand := fun _ _ => ["/src/github.com/GoogleContainerTools/skaffold"];
     cd := fun _ s => (1, s);
     docker := fun _ _ s =>
       match s with
       | status :: rest => (status, rest)
       | [] => (127, [])
       end;
     redirect := fun _ s => (true, s);
     printf := fun _ s => (0, s) |}.

End sh.

(** * Facts *)

(** ** Strings *)

Lemma slice_to_app (p r : string) : strings.slice_to (String.length p) (p +:+ r) = p.
Proof. induction p as [|c p IH]; simpl; [by destruct r | by rewrite IH]. Qed.

Lemma slice_from_app (p r : string) : strings.slice_from (String.length p) (p +:+ r) = r.
Proof. induction p as [|c p IH]; simpl; done. Qed.

Lemma length_app (p r : string) :
  String.length (p +:+ r) = (String.length p + String.length r)%nat.
Proof. induction p as [|c p IH]; simpl; [done | by rewrite IH]. Qed.

Lemma HasPrefix_app (p r : string) : strings.HasPrefix (p +:+ r) p = true.
Proof.
  unfold strings.HasPrefix. rewrite slice_to_app, String.eqb_refl, length_app.
  rewrite andb_true_r. apply Nat.leb_le. lia.
Qed.

Lemma TrimPrefix_app (p r : string) : strings.TrimPrefix (p +:+ r) p = r.
Proof. unfold strings.TrimPrefix. by rewrite HasPrefix_app, slice_from_app. Qed.

Lemma TrimPrefix_other (s p : string) :
  strings.HasPrefix s p = false -> strings.TrimPrefix s p = s.
Proof. unfold strings.TrimPrefix. by intros ->. Qed.

Lemma colons_from_latest (n : nat) (s : string) :
  colons_after_last_slash_from n (s +:+ ":latest") =
  S (colons_after_last_slash_from n s).
Proof.
  revert n. induction s as [|c s IH]; intros n; simpl; [done|].
  destruct (Ascii.eqb c "/"); [apply IH|].
  destruct (Ascii.eqb c ":"); apply IH.
Qed.

Lemma latest_of_tagged_not_well_formed (ref : string) :
  carries_tag ref = true -> well_formed_repo_tag (ref +:+ ":latest") = false.
Proof.
  unfold carries_tag, well_formed_repo_tag, colons_after_last_slash.
  rewrite colons_from_latest. intros H%Nat.leb_le. apply Nat.eqb_neq. lia.
Qed.

Lemma lookup_map_app {A B : Type} (g : A -> B) (l : list A) (d : list B)
    (i : nat) (x : A) :
  l !! i = Some x -> (map g l ++ d) !! i = Some (g x).
Proof.
  revert i. induction l as [|y l IH]; intros [|i]; simpl; try done.
  - by intros [= ->].
  - apply IH.
Qed.

(** ** The filter of [Digest] *)

Lemma NewArgs_reference (v : string) :
  filters.NewArgs [{| filters.Key := "reference"; filters.Value := v |}]
  = {[ "reference" := {[ v ]} ]}.
Proof.
  unfold filters.NewArgs, filters.Add. simpl. rewrite lookup_empty. simpl.
  rewrite insert_empty. by rewrite (right_id_L ∅ (∪)).
Qed.

(** ** The scan of [Digest] *)

Lemma scan_tags_In (tags : list string) (t : string) :
  scan_tags tags t = true <-> In t tags.
Proof.
  induction tags as [|x tags IH]; simpl; [done|].
  destruct (String.eqb_spec x t) as [->|Hne]; [tauto|].
  rewrite IH. split; [tauto | intros [?|?]; congruence].
Qed.

Lemma scan_images_first (pre post : list types.ImageSummary)
    (image : types.ImageSummary) (t : string) :
  Forall (fun i => ~ image_carries t i) pre ->
  image_carries t image ->
  scan_images (pre ++ image :: post) t = Some (types.ID image).
Proof.
  intros Hpre Himg. induction Hpre as [|i pre Hi _ IH]; simpl.
  - apply scan_tags_In in Himg. by rewrite Himg.
  - destruct (scan_tags (types.RepoTags i) t) eqn:E; [|done].
    apply scan_tags_In in E. contradiction.
Qed.

Lemma scan_images_none (imageList : list types.ImageSummary) (t : string) :
  scan_images imageList t = None <->
  Forall (fun i => ~ image_carries t i) imageList.
Proof.
  induction imageList as [|i l IH]; simpl.
  - split; [constructor | done].
  - destruct (scan_tags (types.RepoTags i) t) eqn:E.
    + apply scan_tags_In in E. split; [done|]. by inversion 1.
    + rewrite IH. split.
      * intros H. constructor; [|done]. intros Hc%scan_tags_In. congruence.
      * by inversion 1.
Qed.

Lemma scan_images_some (imageList : list types.ImageSummary) (t id : string) :
  scan_images imageList t = Some id ->
  exists pre image post,
    imageList = (pre ++ image :: post)
    /\ Forall (fun i => ~ image_carries t i) pre
    /\ image_carries t image /\ types.ID image = id.
Proof.
  induction imageList as [|i l IH]; simpl; [done|].
  destruct (scan_tags (types.RepoTags i) t) eqn:E.
  - intros [= <-]. exists [], i, l. apply scan_tags_In in E. by repeat split.
  - intros (pre & image & post & -> & Hpre & Hc & Hid)%IH.
    exists (i :: pre), image, post. repeat split; try done.
    constructor; [|done]. intros Hi%scan_tags_In. congruence.
Qed.

(** ** The relay *)

Lemma first_error_terminal (before after : EventStream) (message : string) :
  Forall (fun jm => jsonmessage.is_progress jm = true) before ->
  first_error (before ++ jsonmessage.TerminalError message :: after)
  = errors.New message.
Proof. induction 1 as [|[]]; simpl; done. Qed.

Lemma rendered_prefix_terminal (before after : EventStream) (message : string) :
  Forall (fun jm => jsonmessage.is_progress jm = true) before ->
  rendered_prefix (before ++ jsonmessage.TerminalError message :: after) = before.
Proof. induction 1 as [|[] ? ? ? IH]; simpl; [done | by rewrite IH | done]. Qed.

Lemma written_to_app (dst : Writer) (t1 t2 : list Event) :
  written_to dst (t1 ++ t2) = (written_to dst t1 ++ written_to dst t2).
Proof.
  induction t1 as [|[] t1 IH]; simpl; try done.
  destruct (String.eqb dst0 dst); simpl; by rewrite IH.
Qed.

Lemma written_to_writes (dst : Writer) (l : list jsonmessage.JSONMessage) :
  written_to dst (map (EvWrite dst) l) = l.
Proof. induction l as [|m l IH]; simpl; [done|]. by rewrite String.eqb_refl, IH. Qed.

Lemma relay_run {St : Type} (src : EventStream) (dst : Writer) (fd : Z)
    (tty : bool) (w : World St) :
  DisplayJSONMessagesStream src dst fd tty w =
  (first_error src,
   {| ext := ext w; trace := trace w ++ map (EvWrite dst) (rendered_prefix src) |}).
Proof.
  revert w. induction src as [|[sid text|message] rest IH]; intros [s t]; simpl.
  - by rewrite app_nil_r.
  - unfold mbind, M_bind, emit. simpl. rewrite IH. simpl.
    by rewrite <- app_assoc.
  - by rewrite app_nil_r.
Qed.

(** ** Running the orchestrator symbolically *)

Ltac run :=
  unfold events_of, RunBuild, RunPush, Digest, streamDockerMessages, call, emit,
    mbind, M_bind, mret, M_ret; simpl.

Ltac answer_of c :=
  let a := fresh "a" in let e := fresh "e" in let s := fresh "s" in
  let E := fresh "E" in
  destruct c as [[a [e|]] s] eqn:E; simpl.

Ltac answer :=
  match goal with
  | |- context [GetAllAuthConfigs ?h ?s] => answer_of (GetAllAuthConfigs h s)
  | |- context [os_Open ?p ?n ?s] => answer_of (os_Open p n s)
  | |- context [GetDockerfileDependencies ?p ?c ?f ?s] =>
      answer_of (GetDockerfileDependencies p c f s)
  | |- context [TarWithOptions ?p ?c ?o ?s] => answer_of (TarWithOptions p c o s)
  | |- context [ImageBuild ?c ?b ?o ?s] => answer_of (ImageBuild c b o s)
  | |- context [encodedRegistryAuth ?p ?c ?h ?r ?s] =>
      answer_of (encodedRegistryAuth p c h r s)
  | |- context [ImagePush ?c ?r ?o ?s] => answer_of (ImagePush c r o s)
  | |- context [ImageList ?c ?o ?s] => answer_of (ImageList c o s)
  | |- context [GetFdInfo ?p ?d] => destruct (GetFdInfo p d); simpl
  | |- context [DisplayJSONMessagesStream _ _ _ _ _] => rewrite relay_run; simpl
  end.

Ltac new_events := rewrite <- ?app_assoc; rewrite ?drop_app_length; simpl.

(** An event that is a call cannot be among the writes of the relay or be
    the closing of the stream. *)
Ltac among H :=
  simpl in H;
  repeat match type of H with
         | _ \/ _ => destruct H as [H|H]
         | In _ (_ ++ _) => apply in_app_or in H
         | In _ (map _ _) =>
             apply in_map_iff in H; destruct H as (? & H & _)
         | In _ [] => destruct H
         | In _ (_ :: _) => destruct H as [H|H]
         | False => destruct H
         end;
  try discriminate H.

Lemma builds_sent_relay (dst : Writer) (l : list jsonmessage.JSONMessage)
    (body : EventStream) :
  builds_sent (map (EvWrite dst) l ++ [EvClose body]) = [].
Proof. induction l as [|m l IH]; simpl; done. Qed.

Lemma archiver_requests_relay (dst : Writer) (l : list jsonmessage.JSONMessage)
    (body : EventStream) :
  archiver_requests (map (EvWrite dst) l ++ [EvClose body]) = [].
Proof. induction l as [|m l IH]; simpl; done. Qed.

Section Facts.
Context {St : Type}.
Implicit Types (w : World St) (pkg : Package St) (cli : DockerAPIClient St).

(** Every run of [RunBuild] is one of the five of [build_run], and the trace
    only grows. *)
Lemma RunBuild_run pkg cli opts w :
  build_run pkg opts (fst (RunBuild pkg cli opts w))
    (events_of (RunBuild pkg cli opts) w)
  /\ trace (snd (RunBuild pkg cli opts w))
     = trace w ++ events_of (RunBuild pkg cli opts) w.
Proof.
  run. repeat answer; new_events; (split; [by constructor | done]).
Qed.

End Facts.

(** Case analysis on the run of [RunBuild] at hand. *)
Ltac build_cases pkg cli opts w :=
  let Hrun := fresh "Hrun" in
  let Htrace := fresh "Htrace" in
  destruct (RunBuild_run pkg cli opts w) as [Hrun Htrace];
  set (evs := events_of (RunBuild pkg cli opts) w) in *;
  set (res := fst (RunBuild pkg cli opts w)) in *;
  clearbody evs res; destruct Hrun.


(** ** Credentials *)

Section Claims.
Context {St : Type}.
Implicit Types (w : World St) (pkg : Package St) (cli : DockerAPIClient St).

(** C7.  When credential resolution fails, the operation returns the error
    wrapped with the name of the step and ends there: for a build the only
    call made is the failed [GetAllAuthConfigs], for a push the only call made
    is the failed [encodedRegistryAuth]; the daemon is never asked to build
    or to push, with or without credentials. *)
Theorem credential_failure_aborts pkg cli w :
  (forall opts authConfigs e s,
      GetAllAuthConfigs (DefaultAuthHelper pkg) (ext w) = ((authConfigs, Some e), s) ->
      fst (RunBuild pkg cli opts w) = Some (withMessage e "read auth configs")
      /\ events_of (RunBuild pkg cli opts) w = [EvGetAllAuthConfigs (authConfigs, Some e)]
      /\ Forall (fun ev => is_daemon_call ev = false) (events_of (RunBuild pkg cli opts) w))
  /\ (forall ref out registryAuth e s,
      encodedRegistryAuth pkg cli (DefaultAuthHelper pkg) ref (ext w)
        = ((registryAuth, Some e), s) ->
      fst (RunPush pkg cli ref out w)
        = Some (withMessage e ("getting auth config for " +:+ ref))
      /\ events_of (RunPush pkg cli ref out) w = [EvEncodedRegistryAuth ref (registryAuth, Some e)]
      /\ Forall (fun ev => is_daemon_call ev = false) (events_of (RunPush pkg cli ref out) w)).
Proof.
  split.
  - intros opts authConfigs e s H. run. rewrite H. simpl. new_events.
    repeat split. by repeat constructor.
  - intros ref out registryAuth e s H. run. rewrite H. simpl. new_events.
    repeat split. by repeat constructor.
Qed.

(** ** The build request *)

(** C10.  Whenever [RunBuild] asks the daemon to build, the options of the
    request hold exactly one tag, the image name of the build options, and
    the Dockerfile path and the build arguments of the build options; and a
    run asks at most once. *)
Theorem build_request_passes_options_through pkg cli opts w body options ret :
  In (EvImageBuild body options ret) (events_of (RunBuild pkg cli opts) w) ->
  types.Tags options = [ImageName opts]
  /\ types.Dockerfile options = Dockerfile opts
  /\ types.BuildArgs options = BuildArgs opts
  /\ builds_sent (events_of (RunBuild pkg cli opts) w) = [(progress.in_ body, options)].
Proof.
  intros H. build_cases pkg cli opts w; among H; simplify_eq/=.
  - done.
  - by rewrite builds_sent_relay.
Qed.

End Claims.

Section ClaimsBuild.
Context {St : Type}.
Implicit Types (w : World St) (pkg : Package St) (cli : DockerAPIClient St).

(** ** The relay under a build and under a push *)

(** C4.  Let the daemon accept the request and answer with a stream made of
    any number of progress updates, then a terminal error, then anything.
    [RunBuild] and [RunPush] return that error, as it is; and the sink holds
    what it held before followed by the progress updates that came before
    the error, in order: nothing is taken back, and nothing after the error is
    rendered. *)
Theorem terminal_error_is_the_result pkg cli w before message after :
  Forall (fun jm => jsonmessage.is_progress jm = true) before ->
  (forall opts body options resp,
      In (EvImageBuild body options (resp, None)) (events_of (RunBuild pkg cli opts) w) ->
      types.Body resp = before ++ jsonmessage.TerminalError message :: after ->
      fst (RunBuild pkg cli opts w) = Some (errorString message)
      /\ written_to (BuildBuf opts) (trace (snd (RunBuild pkg cli opts w)))
         = written_to (BuildBuf opts) (trace w) ++ before)
  /\ (forall ref out options,
      In (EvImagePush ref options
            (before ++ jsonmessage.TerminalError message :: after, None))
         (events_of (RunPush pkg cli ref out) w) ->
      fst (RunPush pkg cli ref out w) = Some (errorString message)
      /\ written_to out (trace (snd (RunPush pkg cli ref out w)))
         = written_to out (trace w) ++ before).
Proof.
  intros Hbefore. split.
  - intros opts body options resp H Hbody.
    build_cases pkg cli opts w; among H; simplify_eq/=.
    rewrite Htrace, Hbody, written_to_app. simpl.
    rewrite written_to_app, (written_to_writes (BuildBuf opts)). simpl.
    rewrite first_error_terminal, rendered_prefix_terminal by done.
    by rewrite app_nil_r.
  - intros ref out options. run. repeat answer; new_events; intros H;
      among H; simplify_eq/=.
    rewrite first_error_terminal, rendered_prefix_terminal by done.
    split; [done|].
    rewrite written_to_app. simpl.
    rewrite written_to_app, (written_to_writes out). simpl. by rewrite app_nil_r.
Qed.

(** ** Context assembly *)

(** C1 (what the code does).  The error of the dependency parser is
    assigned and never read.  When the parser fails, [RunBuild] still asks
    the archiver, for the paths the parser returned with its error; when the
    archiver succeeds the daemon is asked to build; and when the daemon
    accepts, the result of [RunBuild] is the result of the relay alone, nil
    if the stream holds no error. *)
Theorem dependency_error_is_dropped pkg cli opts w workspace f paths e :
  In (EvGetDockerfileDependencies workspace f (paths, Some e))
     (events_of (RunBuild pkg cli opts) w) ->
  exists buildCtx tar_err,
    In (EvTarWithOptions (ContextDir opts)
          {| archive.IncludeFiles :=
               map (fun path => strings.TrimPrefix path (ContextDir opts)) paths
               ++ [Dockerfile opts];
             archive.ChownOpts := Some {| idtools.UID := 0; idtools.GID := 0 |} |}
          (buildCtx, tar_err))
       (events_of (RunBuild pkg cli opts) w)
    /\ (tar_err = None ->
        exists body options resp build_err,
          In (EvImageBuild body options (resp, build_err))
             (events_of (RunBuild pkg cli opts) w)
          /\ (build_err = None ->
              fst (RunBuild pkg cli opts w) = first_error (types.Body resp))).
Proof.
  intros H. build_cases pkg cli opts w; among H; simplify_eq/=.
  - eexists _, _. split; [right; right; right; left; reflexivity | done].
  - eexists _, _. split; [right; right; right; left; reflexivity |].
    intros _. eexists _, _, _, _. split; [do 4 right; left; reflexivity | done].
  - eexists _, _. split; [right; right; right; left; reflexivity |].
    intros _. eexists _, _, _, _. split; [do 4 right; left; reflexivity | done].
Qed.

(** C2 (amended).  [RunBuild] checks no dependency path itself.  Whatever
    the parser lists, the archiver is asked once, on the context directory;
    a listed path that does not start with the context directory is among
    the includes of that request as it is; context assembly fails when, and
    only when, the archiver reports an error, and then [RunBuild] returns
    that error wrapped as "tar workspace" without any call to the daemon;
    when the archiver reports none the daemon is asked to build with the
    archive the archiver returned. *)
Theorem context_assembly_fails_only_with_the_archiver pkg cli opts w workspace f
    paths dep_err :
  In (EvGetDockerfileDependencies workspace f (paths, dep_err))
     (events_of (RunBuild pkg cli opts) w) ->
  exists includes buildCtx tar_err,
    archiver_requests (events_of (RunBuild pkg cli opts) w)
      = [(ContextDir opts,
          {| archive.IncludeFiles := includes;
             archive.ChownOpts := Some {| idtools.UID := 0; idtools.GID := 0 |} |})]
    /\ In (EvTarWithOptions (ContextDir opts)
          {| archive.IncludeFiles := includes;
             archive.ChownOpts := Some {| idtools.UID := 0; idtools.GID := 0 |} |}
          (buildCtx, tar_err))
       (events_of (RunBuild pkg cli opts) w)
    /\ (forall path,
          In path paths -> strings.HasPrefix path (ContextDir opts) = false ->
          In path includes)
    /\ (forall e,
          tar_err = Some e ->
          fst (RunBuild pkg cli opts w) = Some (withMessage e "tar workspace")
          /\ Forall (fun ev => is_daemon_call ev = false)
               (events_of (RunBuild pkg cli opts) w))
    /\ (tar_err = None ->
        exists options,
          builds_sent (events_of (RunBuild pkg cli opts) w) = [(buildCtx, options)]).
Proof.
  intros H.
  assert (Hkeep : forall path,
             In path paths -> strings.HasPrefix path (ContextDir opts) = false ->
             In path (map (fun p => strings.TrimPrefix p (ContextDir opts)) paths
                      ++ [Dockerfile opts])).
  { intros path Hin Hpre. apply in_or_app. left. apply in_map_iff.
    exists path. split; [by apply TrimPrefix_other | done]. }
  build_cases pkg cli opts w; among H; simplify_eq/=;
    eexists _, _, _; (split; [try rewrite archiver_requests_relay; reflexivity|]);
    (split; [right; right; right; left; reflexivity|]);
    (split; [exact Hkeep|]).
  - split; [intros e' [= <-] | done]. split; [done | by repeat constructor].
  - split; [done | intros _]. by eexists.
  - split; [done | intros _]. eexists. by rewrite builds_sent_relay.
Qed.

(** C3 (what the code does).  [RunBuild] makes a listed path relative to
    the context directory with [strings.TrimPrefix], which works on
    characters: when a listed path begins with the characters of the context
    directory, the archiver is asked, at the place of that path in the list,
    for the characters that follow, wherever the cut falls, be it in the
    middle of a file name or of the name of a sibling directory.  The listed
    path itself is then not what the archive is made of. *)
Theorem listed_path_is_cut_after_the_context_string pkg cli opts w workspace f
    paths dep_err i rest :
  In (EvGetDockerfileDependencies workspace f (paths, dep_err))
     (events_of (RunBuild pkg cli opts) w) ->
  paths !! i = Some (ContextDir opts +:+ rest) ->
  exists tarOpts,
    archiver_requests (events_of (RunBuild pkg cli opts) w)
      = [(ContextDir opts, tarOpts)]
    /\ archive.ChownOpts tarOpts = Some {| idtools.UID := 0; idtools.GID := 0 |}
    /\ length (archive.IncludeFiles tarOpts) = S (length paths)
    /\ archive.IncludeFiles tarOpts !! i = Some rest.
Proof.
  intros H Hi.
  build_cases pkg cli opts w; among H; simplify_eq/=;
    eexists; (split; [try rewrite archiver_requests_relay; reflexivity|]);
    (split; [reflexivity|]); simpl;
    (split; [by rewrite List.length_app, List.length_map, Nat.add_1_r|]);
    by rewrite (lookup_map_app _ _ _ _ _ Hi), TrimPrefix_app.
Qed.

End ClaimsBuild.

(** ** Digest *)

Section ClaimsDigest.
Context {St : Type}.
Implicit Types (w : World St) (cli : DockerAPIClient St).

(** What [Digest] returns, from the answer to its list query. *)
Lemma Digest_run cli ref w :
  let answer := ImageList cli (digest_query ref) (ext w) in
  fst (Digest cli ref w)
  = match snd (fst answer) with
    | Some e => ("", Some (withMessage e "getting image id"))
    | None =>
        match scan_images (fst (fst answer)) (ref +:+ ":latest") with
        | Some image_id => (image_id, None)
        | None => ("", None)
        end
    end
  /\ events_of (Digest cli ref) w = [EvImageList (digest_query ref) (fst answer)]
  /\ ext (snd (Digest cli ref w)) = snd answer.
Proof.
  run. unfold Sprintf_latest, digest_query. rewrite NewArgs_reference.
  answer.
  - by new_events.
  - destruct (scan_images _ _); simpl; by new_events.
Qed.

(** C5.  Let the daemon answer the list query of [Digest "myimage"] with
    the index [imageList] and no error.  If some image of the index carries
    the repo tag "myimage:latest", [Digest] returns, with no error, the
    identifier of an image that carries it: that of the first such image in
    the order of the index, hence that of the image itself when no other
    image comes before it with the same tag.  If no image of the index
    carries that exact tag, [Digest] returns the empty string and no error. *)
Theorem Digest_myimage cli w imageList s :
  ImageList cli (digest_query "myimage") (ext w) = ((imageList, None), s) ->
  (forall before image after,
      imageList = before ++ image :: after ->
      image_carries "myimage:latest" image ->
      Forall (fun i => ~ image_carries "myimage:latest" i) before ->
      fst (Digest cli "myimage" w) = (types.ID image, None))
  /\ ((exists image, In image imageList /\ image_carries "myimage:latest" image) ->
      exists image,
        In image imageList /\ image_carries "myimage:latest" image
        /\ fst (Digest cli "myimage" w) = (types.ID image, None))
  /\ ((forall image, In image imageList -> ~ image_carries "myimage:latest" image) ->
      fst (Digest cli "myimage" w) = ("", None)).
Proof.
  intros Hlist. destruct (Digest_run cli "myimage" w) as (-> & _ & _).
  rewrite Hlist. change ("myimage" +:+ ":latest") with "myimage:latest".
  simpl. repeat split.
  - intros before image after -> Hc Hb. by rewrite scan_images_first.
  - intros (image & Hin & Hc).
    destruct (scan_images imageList "myimage:latest") as [id|] eqn:E.
    + apply scan_images_some in E as (pre & i & post & -> & _ & Hi & <-).
      exists i. split; [|done]. apply in_or_app. right. by left.
    + apply scan_images_none in E. rewrite Forall_forall in E.
      destruct (E image); [by apply list_elem_of_In | done].
  - intros Hnone.
    assert (E : scan_images imageList "myimage:latest" = None).
    { apply scan_images_none, Forall_forall. intros i Hi%list_elem_of_In. auto. }
    by rewrite E.
Qed.

(** C6.  For every reference, the one call [Digest] makes is a list query
    filtered on the reference followed by ":latest", and an identifier is
    returned only for an image that carries the reference followed by
    ":latest".  Hence, for a reference that carries a tag already, in an
    index of well-formed repo tags, [Digest] finds no image at all, whichever
    images carry the reference itself as a tag. *)
Theorem Digest_matches_on_latest cli ref w imageList s :
  ImageList cli (digest_query ref) (ext w) = ((imageList, None), s) ->
  events_of (Digest cli ref) w
    = [EvImageList {| types.Filters := {[ "reference" := {[ ref +:+ ":latest" ]} ]} |}
         (imageList, None)]
  /\ (forall image_id,
        fst (Digest cli ref w) = (image_id, None) -> image_id <> "" ->
        exists image,
          In image imageList /\ image_carries (ref +:+ ":latest") image
          /\ types.ID image = image_id)
  /\ (carries_tag ref = true ->
      Forall (fun image =>
                Forall (fun t => well_formed_repo_tag t = true) (types.RepoTags image))
             imageList ->
      fst (Digest cli ref w) = ("", None)).
Proof.
  intros Hlist. destruct (Digest_run cli ref w) as (-> & -> & _).
  rewrite Hlist. simpl. repeat split.
  - intros image_id Hres Hne.
    destruct (scan_images imageList (ref +:+ ":latest")) as [id|] eqn:E;
      [|by simplify_eq].
    apply scan_images_some in E as (pre & i & post & -> & _ & Hi & <-).
    exists i. simplify_eq. repeat split; [|done]. apply in_or_app. right. by left.
  - intros Htag Hwf.
    assert (E : scan_images imageList (ref +:+ ":latest") = None).
    { apply scan_images_none. eapply Forall_impl; [exact Hwf|].
      intros image Htags Hc. rewrite Forall_forall in Htags.
      apply list_elem_of_In, Htags in Hc.
      by rewrite latest_of_tagged_not_well_formed in Hc. }
    by rewrite E.
Qed.

(** C8.  When the list query itself fails, [Digest] returns the empty
    string and the error of the query wrapped as "getting image id"; this
    result is not the one of the not-found case, the empty string with no
    error. *)
Theorem Digest_query_failure_is_an_error cli ref w imageList e s :
  ImageList cli (digest_query ref) (ext w) = ((imageList, Some e), s) ->
  fst (Digest cli ref w) = ("", Some (withMessage e "getting image id"))
  /\ Error (withMessage e "getting image id") = "getting image id: " +:+ Error e
  /\ Cause (withMessage e "getting image id") = Cause e
  /\ fst (Digest cli ref w) <> ("", None).
Proof.
  intros Hlist. destruct (Digest_run cli ref w) as (-> & _ & _).
  rewrite Hlist. simpl. by repeat split.
Qed.

(** C9.  Two lookups in a row.  If the daemon answers the list query of the
    second lookup as it answered that of the first (the index has not
    changed), the second lookup returns what the first returned, the
    identifier and the error alike. *)
Theorem Digest_twice cli ref w :
  let first := Digest cli ref w in
  let second := Digest cli ref (snd first) in
  fst (ImageList cli (digest_query ref) (ext (snd first)))
    = fst (ImageList cli (digest_query ref) (ext w)) ->
  fst second = fst first.
Proof.
  intros first second Hsame. subst first second.
  destruct (Digest_run cli ref w) as (-> & _ & Hext).
  destruct (Digest_run cli ref (snd (Digest cli ref w))) as (-> & _ & _).
  by rewrite Hsame.
Qed.

End ClaimsDigest.

(** * The claims at concrete inputs *)

Lemma credential_failure_aborts_witness :
  let w := fake.start (fake.without_credentials fake.healthy) in
  fst (RunBuild fake.pkg fake.cli fake.opts w)
    = Some (withMessage fake.credential_store_down "read auth configs")
  /\ events_of (RunBuild fake.pkg fake.cli fake.opts) w
     = [EvGetAllAuthConfigs (∅, Some fake.credential_store_down)]
  /\ fst (RunPush fake.pkg fake.cli "myimage" "push-log" w)
     = Some (withMessage fake.credential_store_down
               "getting auth config for myimage")
  /\ events_of (RunPush fake.pkg fake.cli "myimage" "push-log") w
     = [EvEncodedRegistryAuth "myimage" ("", Some fake.credential_store_down)].
Proof.
  intros w.
  destruct (credential_failure_aborts fake.pkg fake.cli w) as [Hbuild Hpush].
  destruct (Hbuild fake.opts ∅ fake.credential_store_down (ext w) eq_refl)
    as (Hb1 & Hb2 & _).
  destruct (Hpush "myimage" "push-log" "" fake.credential_store_down (ext w) eq_refl)
    as (Hp1 & Hp2 & _).
  repeat split; assumption.
Defined.

Lemma build_request_passes_options_through_witness :
  let w := fake.start fake.healthy in
  let options :=
    {| types.Tags := ["myimage"];
       types.Dockerfile := "Dockerfile";
       types.BuildArgs := {[ "VERSION" := Some "1.0"; "HTTP_PROXY" := None ]};
       types.AuthConfigs := ∅ |} in
  In (EvImageBuild (build_body fake.opts fake.healthy_archive) options
        (fake.build_answer fake.healthy))
     (events_of (RunBuild fake.pkg fake.cli fake.opts) w)
  /\ builds_sent (events_of (RunBuild fake.pkg fake.cli fake.opts) w)
     = [(fake.healthy_archive, options)].
Proof.
  intros w options.
  assert (H : In (EvImageBuild (build_body fake.opts fake.healthy_archive) options
                    (fake.build_answer fake.healthy))
                 (events_of (RunBuild fake.pkg fake.cli fake.opts) w)).
  { vm_compute. do 4 right. left. reflexivity. }
  split; [exact H|].
  exact (proj2 (proj2 (proj2
    (build_request_passes_options_through fake.pkg fake.cli fake.opts w _ _ _ H)))).
Defined.

Lemma terminal_error_is_the_result_witness :
  let w := fake.start (fake.with_stream fake.failing_stream fake.healthy) in
  let before :=
    [jsonmessage.ProgressUpdate "" "Step 1/2 : FROM scratch";
     jsonmessage.ProgressUpdate "" "Step 2/2 : COPY main.go /"] in
  (fst (RunBuild fake.pkg fake.cli fake.opts w)
     = Some (errorString "COPY failed: no such file")
   /\ written_to "build" (trace (snd (RunBuild fake.pkg fake.cli fake.opts w)))
      = before)
  /\ (fst (RunPush fake.pkg fake.cli "myimage" "push-log" w)
      = Some (errorString "COPY failed: no such file")
      /\ written_to "push-log" (trace (snd (RunPush fake.pkg fake.cli "myimage" "push-log" w)))
         = before).
Proof.
  intros w before.
  assert (Hbefore : Forall (fun jm => jsonmessage.is_progress jm = true) before)
    by (repeat constructor).
  destruct (terminal_error_is_the_result fake.pkg fake.cli w before
              "COPY failed: no such file"
              [jsonmessage.ProgressUpdate "" "never read"] Hbefore)
    as [Hbuild Hpush].
  split.
  - apply (Hbuild fake.opts (build_body fake.opts fake.healthy_archive)
             (build_request fake.opts ∅)
             {| types.Body := fake.failing_stream; types.OSType := "linux" |}).
    + vm_compute. do 4 right. left. reflexivity.
    + reflexivity.
  - apply (Hpush "myimage" "push-log" {| types.RegistryAuth := "e30=" |}).
    vm_compute. right. left. reflexivity.
Defined.

Lemma dependency_error_is_dropped_witness :
  let w := fake.start fake.broken_parser in
  let evs := events_of (RunBuild fake.pkg fake.cli fake.opts) w in
  In (EvGetDockerfileDependencies "/workspace" "FROM scratch"
        ([], Some (errorString "parsing dockerfile: unknown instruction"))) evs
  /\ exists buildCtx tar_err,
      In (EvTarWithOptions "/workspace"
            {| archive.IncludeFiles := ["Dockerfile"];
               archive.ChownOpts := Some fake.root |}
            (buildCtx, tar_err)) evs
      /\ (tar_err = None ->
          exists body options resp build_err,
            In (EvImageBuild body options (resp, build_err)) evs
            /\ (build_err = None ->
                fst (RunBuild fake.pkg fake.cli fake.opts w)
                = first_error (types.Body resp)))
      /\ fst (RunBuild fake.pkg fake.cli fake.opts w) = None
      /\ map (fun sent => map archive.Name (fst sent)) (builds_sent evs)
         = [["Dockerfile"]].
Proof.
  intros w evs.
  assert (H : In (EvGetDockerfileDependencies "/workspace" "FROM scratch"
                    ([], Some (errorString "parsing dockerfile: unknown instruction")))
                 evs).
  { vm_compute. right. right. left. reflexivity. }
  split; [exact H|].
  destruct (dependency_error_is_dropped fake.pkg fake.cli fake.opts w _ _ _ _ H)
    as (buildCtx & tar_err & Htar & Hbuild).
  exists buildCtx, tar_err. repeat split; [exact Htar | exact Hbuild | ..];
    vm_compute; reflexivity.
Defined.

(** C2 as stated fails: the parser lists [/etc/passwd], which is outside the
    context directory [/workspace]; context assembly succeeds, [RunBuild]
    returns nil, and the archive sent to the daemon holds the other members
    and not that path. *)
Lemma outside_path_is_silently_dropped :
  let w := fake.start fake.outside_path in
  let evs := events_of (RunBuild fake.pkg fake.cli fake.opts) w in
  In (EvGetDockerfileDependencies "/workspace" "FROM scratch"
        (["/etc/passwd"; "/workspace/main.go"], None)) evs
  /\ resolves_outside (ContextDir fake.opts) "/etc/passwd" = true
  /\ fst (RunBuild fake.pkg fake.cli fake.opts w) = None
  /\ archiver_requests evs
     = [("/workspace",
         {| archive.IncludeFiles := ["/etc/passwd"; "/main.go"; "Dockerfile"];
            archive.ChownOpts := Some fake.root |})]
  /\ map (fun sent => map archive.Name (fst sent)) (builds_sent evs)
     = [["main.go"; "Dockerfile"]].
Proof. vm_compute. repeat split. right. right. left. reflexivity. Qed.

Lemma context_assembly_fails_only_with_the_archiver_witness :
  let w := fake.start fake.outside_path in
  let evs := events_of (RunBuild fake.pkg fake.cli fake.opts) w in
  In (EvGetDockerfileDependencies "/workspace" "FROM scratch"
        (["/etc/passwd"; "/workspace/main.go"], None)) evs
  /\ exists includes buildCtx (tar_err : error),
      archiver_requests evs
        = [("/workspace",
            {| archive.IncludeFiles := includes; archive.ChownOpts := Some fake.root |})]
      /\ In "/etc/passwd" includes
      /\ (tar_err = None -> exists options, builds_sent evs = [(buildCtx, options)]).
Proof.
  intros w evs.
  assert (H : In (EvGetDockerfileDependencies "/workspace" "FROM scratch"
                    (["/etc/passwd"; "/workspace/main.go"], None)) evs).
  { vm_compute. right. right. left. reflexivity. }
  split; [exact H|].
  destruct (context_assembly_fails_only_with_the_archiver
              fake.pkg fake.cli fake.opts w _ _ _ _ H)
    as (includes & buildCtx & tar_err & Hreq & _ & Hkeep & _ & Hsent).
  exists includes, buildCtx, tar_err. split; [exact Hreq|]. split; [|exact Hsent].
  apply Hkeep; [left; reflexivity | reflexivity].
Defined.

Lemma listed_path_is_cut_after_the_context_string_witness :
  let w := fake.start scenario.sibling_directory in
  let evs := events_of (RunBuild fake.pkg fake.cli fake.opts) w in
  let dot := events_of (RunBuild fake.pkg fake.cli fake.dot_opts)
               (fake.start fake.dot_context) in
  In (EvGetDockerfileDependencies "/workspace" "FROM scratch"
        (["/workspace/main.go"; "/workspace-common/util.go"], None)) evs
  /\ (exists tarOpts,
        archiver_requests evs = [("/workspace", tarOpts)]
        /\ archive.ChownOpts tarOpts = Some fake.root
        /\ length (archive.IncludeFiles tarOpts) = 3%nat
        /\ archive.IncludeFiles tarOpts !! 1%nat = Some "-common/util.go")
  /\ archiver_requests evs
     = [("/workspace",
         {| archive.IncludeFiles := ["/main.go"; "-common/util.go"; "Dockerfile"];
            archive.ChownOpts := Some fake.root |})]
  /\ fst (RunBuild fake.pkg fake.cli fake.opts w) = None
  /\ map (fun sent => map archive.Name (fst sent)) (builds_sent evs)
     = [["main.go"; "Dockerfile"]]
  /\ In (EvGetDockerfileDependencies "." "FROM scratch" ([".env"], None)) dot
  /\ archiver_requests dot
     = [(".", {| archive.IncludeFiles := ["env"; "Dockerfile"];
                 archive.ChownOpts := Some fake.root |})]
  /\ map (fun sent => map archive.Name (fst sent)) (builds_sent dot)
     = [["env"; "Dockerfile"]].
Proof.
  intros w evs dot.
  assert (H : In (EvGetDockerfileDependencies "/workspace" "FROM scratch"
                    (["/workspace/main.go"; "/workspace-common/util.go"], None)) evs).
  { vm_compute. right. right. left. reflexivity. }
  split; [exact H|]. split.
  { exact (listed_path_is_cut_after_the_context_string fake.pkg fake.cli fake.opts w
             _ _ _ _ 1%nat "-common/util.go" H eq_refl). }
  vm_compute. repeat split. right. right. left. reflexivity.
Defined.

Lemma Digest_myimage_witness :
  let w := fake.start fake.healthy in
  let found := {| types.ID := "sha256:2222";
                  types.RepoTags := ["myimage:v1"; "myimage:latest"] |} in
  ImageList fake.cli (digest_query "myimage") (ext w) = (([found], None), ext w)
  /\ fst (Digest fake.cli "myimage" w) = ("sha256:2222", None).
Proof.
  intros w found.
  assert (H : ImageList fake.cli (digest_query "myimage") (ext w)
              = (([found], None), ext w)) by (vm_compute; reflexivity).
  split; [exact H|].
  destruct (Digest_myimage fake.cli w [found] (ext w) H) as (Hfirst & _ & _).
  apply (Hfirst [] found []); [reflexivity | right; left; reflexivity | constructor].
Defined.

Lemma Digest_matches_on_latest_witness :
  let w := fake.start fake.healthy in
  ImageList fake.unfiltered_cli (digest_query "myimage:v1") (ext w)
    = ((fake.images fake.healthy, None), ext w)
  /\ carries_tag "myimage:v1" = true
  /\ (exists image, In image (fake.images fake.healthy)
                    /\ image_carries "myimage:v1" image)
  /\ fst (Digest fake.unfiltered_cli "myimage:v1" w) = ("", None).
Proof.
  intros w.
  assert (H : ImageList fake.unfiltered_cli (digest_query "myimage:v1") (ext w)
              = ((fake.images fake.healthy, None), ext w)) by reflexivity.
  split; [exact H|]. split; [reflexivity|]. split.
  { eexists. split; [right; left; reflexivity | left; reflexivity]. }
  destruct (Digest_matches_on_latest fake.unfiltered_cli "myimage:v1" w _ _ H)
    as (_ & _ & Hnone).
  apply Hnone; [reflexivity|]. repeat constructor.
Defined.

Lemma Digest_query_failure_is_an_error_witness :
  let w := fake.start (fake.with_index [] (Some fake.daemon_down) fake.healthy) in
  ImageList fake.cli (digest_query "myimage") (ext w)
    = (([], Some fake.daemon_down), ext w)
  /\ fst (Digest fake.cli "myimage" w)
     = ("", Some (withMessage fake.daemon_down "getting image id"))
  /\ Error (withMessage fake.daemon_down "getting image id")
     = "getting image id: Cannot connect to the Docker daemon".
Proof.
  intros w.
  assert (H : ImageList fake.cli (digest_query "myimage") (ext w)
              = (([], Some fake.daemon_down), ext w)) by reflexivity.
  split; [exact H|].
  destruct (Digest_query_failure_is_an_error fake.cli "myimage" w _ _ _ H)
    as (Hres & Hmsg & _).
  split; [exact Hres | exact Hmsg].
Defined.

Lemma Digest_twice_witness :
  let w := fake.start fake.healthy in
  let first := Digest fake.cli "myimage" w in
  fst (Digest fake.cli "myimage" (snd first)) = fst first
  /\ fst first = ("sha256:2222", None).
Proof.
  intros w first. split.
  - apply (Digest_twice fake.cli "myimage" w). reflexivity.
  - vm_compute. reflexivity.
Defined.

(** * Further properties of the code *)

(** ** Helpers *)

Lemma slice_to_from (n : nat) (s : string) :
  strings.slice_to n s +:+ strings.slice_from n s = s.
Proof.
  revert s. induction n as [|n IH]; intros [|c s]; simpl; try done.
  unfold String.append. fold String.append. by rewrite IH.
Qed.

Lemma HasPrefix_split (s p : string) :
  strings.HasPrefix s p = true ->
  s = p +:+ strings.slice_from (String.length p) s.
Proof.
  unfold strings.HasPrefix. intros [_ H%String.eqb_eq]%andb_true_iff.
  transitivity (strings.slice_to (String.length p) s
                +:+ strings.slice_from (String.length p) s);
    [by rewrite slice_to_from | by rewrite H].
Qed.

Lemma TrimPrefix_cases (s p : string) :
  (strings.HasPrefix s p = false /\ strings.TrimPrefix s p = s)
  \/ s = p +:+ strings.TrimPrefix s p.
Proof.
  unfold strings.TrimPrefix. destruct (strings.HasPrefix s p) eqn:E.
  - right. by apply HasPrefix_split.
  - by left.
Qed.

Lemma streams_closed_relay (dst : Writer) (l : list jsonmessage.JSONMessage)
    (body : EventStream) :
  streams_closed (map (EvWrite dst) l ++ [EvClose body]) = [body].
Proof. induction l as [|m l IH]; simpl; done. Qed.

Lemma streams_opened_relay (dst : Writer) (l : list jsonmessage.JSONMessage)
    (body : EventStream) :
  streams_opened (map (EvWrite dst) l ++ [EvClose body]) = [].
Proof. induction l as [|m l IH]; simpl; done. Qed.

Lemma pushes_sent_relay (dst : Writer) (l : list jsonmessage.JSONMessage)
    (body : EventStream) :
  pushes_sent (map (EvWrite dst) l ++ [EvClose body]) = [].
Proof. induction l as [|m l IH]; simpl; done. Qed.

Lemma last_relay (dst : Writer) (l : list jsonmessage.JSONMessage)
    (body : EventStream) (ev : Event) :
  last (ev :: map (EvWrite dst) l ++ [EvClose body]) = Some (EvClose body).
Proof. by rewrite app_comm_cons, last_snoc. Qed.

Lemma relay_events_have_no_error (dst : Writer) (l : list jsonmessage.JSONMessage)
    (body : EventStream) :
  Forall (fun ev => error_of ev = None) (map (EvWrite dst) l ++ [EvClose body]).
Proof.
  apply Forall_app. split; [|by repeat constructor].
  induction l; simpl; by constructor.
Qed.

Lemma rendered_prefix_whole (src : EventStream) :
  first_error src = None -> rendered_prefix src = src.
Proof.
  induction src as [|[sid text|message] rest IH]; simpl; try done.
  intros H. by rewrite IH.
Qed.

Lemma scan_images_filter (l : list types.ImageSummary) (t : string) :
  scan_images (List.filter (has_tag t) l) t = scan_images l t.
Proof.
  induction l as [|i l IH]; simpl; [done|]. unfold has_tag at 1.
  destruct (scan_tags (types.RepoTags i) t) eqn:E; simpl; [by rewrite E | done].
Qed.



Section MoreBuild.
Context {St : Type}.
Implicit Types (w : World St) (pkg : Package St) (cli : DockerAPIClient St).

(** ** [RunBuild] *)

(** X1.  When the Dockerfile cannot be opened, the file [RunBuild] tried is
    the Dockerfile of the options joined to the context directory, the result
    is the error of [os.Open] wrapped as "opening dockerfile", and the run is
    the two calls for the credentials and for the file: the parser, the
    archiver and the daemon are not called. *)
Theorem RunBuild_unreadable_dockerfile pkg cli opts w name f e :
  In (EvOpen name (f, Some e)) (events_of (RunBuild pkg cli opts) w) ->
  name = filepath_Join pkg (ContextDir opts) (Dockerfile opts)
  /\ fst (RunBuild pkg cli opts w) = Some (withMessage e "opening dockerfile")
  /\ exists authConfigs,
      events_of (RunBuild pkg cli opts) w
      = [EvGetAllAuthConfigs (authConfigs, None); EvOpen name (f, Some e)].
Proof.
  intros H. build_cases pkg cli opts w; among H; simplify_eq/=.
  repeat split. by eexists.
Qed.

(** X2.  When the daemon refuses the build request, the result is the error
    of [ImageBuild] wrapped as "docker build", and the run is the five calls
    up to the refused request and nothing more: the response is not handed to
    the relay and no stream is closed.  (What the progress reader reports to
    the progress sink while the client reads the body happens inside
    [ImageBuild] and is no part of the statement.) *)
Theorem RunBuild_refused_build pkg cli opts w body options resp e :
  In (EvImageBuild body options (resp, Some e)) (events_of (RunBuild pkg cli opts) w) ->
  fst (RunBuild pkg cli opts w) = Some (withMessage e "docker build")
  /\ (exists f paths dep_err tarOpts,
      events_of (RunBuild pkg cli opts) w
      = [EvGetAllAuthConfigs (types.AuthConfigs options, None);
         EvOpen (filepath_Join pkg (ContextDir opts) (Dockerfile opts)) (f, None);
         EvGetDockerfileDependencies (ContextDir opts) f (paths, dep_err);
         EvTarWithOptions (ContextDir opts) tarOpts (progress.in_ body, None);
         EvImageBuild body options (resp, Some e)])
  /\ streams_closed (events_of (RunBuild pkg cli opts) w) = [].
Proof.
  intros H. build_cases pkg cli opts w; among H; simplify_eq/=.
  repeat split. by eexists _, _, _, _.
Qed.

(** X3.  [RunBuild] closes exactly the streams it was handed: the body of
    the response when the daemon accepted the build, whether the stream then
    ends well or in an error, and nothing otherwise.  The close is the last
    thing a run does. *)
Theorem RunBuild_closes_the_response pkg cli opts w :
  streams_closed (events_of (RunBuild pkg cli opts) w)
  = streams_opened (events_of (RunBuild pkg cli opts) w)
  /\ (length (streams_opened (events_of (RunBuild pkg cli opts) w)) <= 1)%nat
  /\ (forall body,
        In (EvClose body) (events_of (RunBuild pkg cli opts) w) ->
        last (events_of (RunBuild pkg cli opts) w) = Some (EvClose body)).
Proof.
  build_cases pkg cli opts w; simpl;
    rewrite ?streams_closed_relay, ?streams_opened_relay; simpl;
    (split; [done|]); (split; [lia|]); intros body H; among H.
  simplify_eq/=. by rewrite ?last_cons_cons, last_relay.
Qed.

(** X4.  Let the last call of a run of [RunBuild] have failed.  Then the
    result is the error of that call wrapped with the message of its step:
    "read auth configs", "opening dockerfile", "tar workspace" or
    "docker build".  The message of the result is the step, a colon and the
    message of the error; its cause is the cause of the error. *)
Theorem RunBuild_wraps_the_failed_call pkg cli opts w ev e :
  last (events_of (RunBuild pkg cli opts) w) = Some ev ->
  error_of ev = Some e ->
  exists step,
    step_of ev = Some step
    /\ In step ["read auth configs"; "opening dockerfile"; "tar workspace"; "docker build"]
    /\ fst (RunBuild pkg cli opts w) = Some (withMessage e step)
    /\ Error (withMessage e step) = step +:+ ": " +:+ Error e
    /\ Cause (withMessage e step) = Cause e.
Proof.
  intros Hlast He. build_cases pkg cli opts w.
  - simplify_eq/=. eexists. repeat split. by left.
  - simplify_eq/=. eexists. repeat split. right. by left.
  - simplify_eq/=. eexists. repeat split. do 2 right. by left.
  - simplify_eq/=. eexists. repeat split. do 3 right. by left.
  - simpl in Hlast. rewrite ?last_cons_cons, last_relay in Hlast. by simplify_eq/=.
Qed.


(** X6.  [RunBuild] returns nil only at the end of a run in which no call
    failed, the dependency parser excepted; the daemon accepted the build;
    and what the build sink received in the run is the whole response stream,
    in order. *)
Theorem RunBuild_nil_result pkg cli opts w :
  fst (RunBuild pkg cli opts w) = None ->
  Forall (fun ev => error_of ev = None \/ is_parser_call ev = true)
    (events_of (RunBuild pkg cli opts) w)
  /\ exists body options resp,
      In (EvImageBuild body options (resp, None)) (events_of (RunBuild pkg cli opts) w)
      /\ written_to (BuildBuf opts) (events_of (RunBuild pkg cli opts) w)
         = types.Body resp.
Proof.
  intros H. build_cases pkg cli opts w; simplify_eq/=. split.
  - do 2 (constructor; [by left|]). constructor; [by right|].
    do 2 (constructor; [by left|]).
    eapply Forall_impl; [apply relay_events_have_no_error|]. intros ev Hev. by left.
  - eexists _, _, _. split; [do 4 right; left; reflexivity|].
    rewrite written_to_app, (written_to_writes (BuildBuf opts)). simpl.
    by rewrite app_nil_r, rendered_prefix_whole.
Qed.

(** X7.  Whenever the daemon is asked to build, the run began with these
    five calls, in this order: the credentials, without error; the Dockerfile
    opened, without error; the parser, on the file just opened; the archiver,
    without error; the build request.  The request carries the credentials
    that the helper returned, all of them, and the archive that the archiver
    returned, read through a progress reader that reports to the progress
    sink of the options. *)
Theorem RunBuild_request_provenance pkg cli opts w body options ret :
  In (EvImageBuild body options ret) (events_of (RunBuild pkg cli opts) w) ->
  exists f paths dep_err tarOpts,
    take 5 (events_of (RunBuild pkg cli opts) w)
    = [EvGetAllAuthConfigs (types.AuthConfigs options, None);
       EvOpen (filepath_Join pkg (ContextDir opts) (Dockerfile opts)) (f, None);
       EvGetDockerfileDependencies (ContextDir opts) f (paths, dep_err);
       EvTarWithOptions (ContextDir opts) tarOpts (progress.in_ body, None);
       EvImageBuild body options ret]
    /\ streamformatter.out (progress.out body) = ProgressBuf opts.
Proof.
  intros H. build_cases pkg cli opts w; among H; simplify_eq/=;
    by eexists _, _, _, _.
Qed.

(** X8.  Whatever the parser lists, the archiver is asked on the context
    directory, with owner uid 0 and gid 0, for one include per listed path, in
    the order of the list, followed by the Dockerfile; and each include is
    either the listed path itself, when the path does not start with the
    context directory string, or what is left of the listed path once that
    string is taken from its front. *)
Theorem RunBuild_includes_come_from_paths pkg cli opts w srcPath tarOpts ret :
  In (EvTarWithOptions srcPath tarOpts ret) (events_of (RunBuild pkg cli opts) w) ->
  srcPath = ContextDir opts
  /\ archive.ChownOpts tarOpts = Some {| idtools.UID := 0; idtools.GID := 0 |}
  /\ exists f paths dep_err includes,
      In (EvGetDockerfileDependencies (ContextDir opts) f (paths, dep_err))
         (events_of (RunBuild pkg cli opts) w)
      /\ archive.IncludeFiles tarOpts = includes ++ [Dockerfile opts]
      /\ Forall2 (fun path include =>
                    (strings.HasPrefix path (ContextDir opts) = false
                     /\ include = path)
                    \/ path = ContextDir opts +:+ include)
           paths includes.
Proof.
  intros H.
  assert (Hall : forall paths,
             Forall2 (fun path include =>
                        (strings.HasPrefix path (ContextDir opts) = false
                         /\ include = path)
                        \/ path = ContextDir opts +:+ include)
               paths (map (fun p => strings.TrimPrefix p (ContextDir opts)) paths)).
  { induction paths as [|p paths IH]; simpl; constructor; [|done].
    apply TrimPrefix_cases. }
  build_cases pkg cli opts w; among H; simplify_eq/=;
    (split; [done|]); (split; [done|]); eexists _, _, _, _;
    (split; [do 2 right; left; reflexivity|]); by split.
Qed.

End MoreBuild.

Section MorePush.
Context {St : Type}.
Implicit Types (w : World St) (pkg : Package St) (cli : DockerAPIClient St).

(** ** [RunPush] *)

(** Each run of [RunPush], by the answers of its two calls. *)
Lemma RunPush_run pkg cli ref out w :
  (exists registryAuth e,
      fst (RunPush pkg cli ref out w)
        = Some (withMessage e ("getting auth config for " +:+ ref))
      /\ events_of (RunPush pkg cli ref out) w
         = [EvEncodedRegistryAuth ref (registryAuth, Some e)])
  \/ (exists registryAuth rc e,
      fst (RunPush pkg cli ref out w)
        = Some (withMessage e "pushing image to repository")
      /\ events_of (RunPush pkg cli ref out) w
         = [EvEncodedRegistryAuth ref (registryAuth, None);
            EvImagePush ref {| types.RegistryAuth := registryAuth |} (rc, Some e)])
  \/ (exists registryAuth rc,
      fst (RunPush pkg cli ref out w) = first_error rc
      /\ events_of (RunPush pkg cli ref out) w
         = [EvEncodedRegistryAuth ref (registryAuth, None);
            EvImagePush ref {| types.RegistryAuth := registryAuth |} (rc, None)]
           ++ map (EvWrite out) (rendered_prefix rc) ++ [EvClose rc]).
Proof.
  run. repeat answer; new_events.
  - left. by eexists _, _.
  - right. left. by eexists _, _, _.
  - right. right. by eexists _, _.
Qed.

(** X9.  Whenever [RunPush] asks the daemon to push, it asks once, for the
    reference it was given and no other, with the registry credential that
    [encodedRegistryAuth] returned for that same reference, as it is; and the
    credential was obtained without error before the request. *)
Theorem RunPush_request pkg cli ref out w pushed options ret :
  In (EvImagePush pushed options ret) (events_of (RunPush pkg cli ref out) w) ->
  pushed = ref
  /\ take 2 (events_of (RunPush pkg cli ref out) w)
     = [EvEncodedRegistryAuth ref (types.RegistryAuth options, None);
        EvImagePush ref options ret]
  /\ pushes_sent (events_of (RunPush pkg cli ref out) w) = [(ref, options)]
  /\ builds_sent (events_of (RunPush pkg cli ref out) w) = [].
Proof.
  intros H.
  destruct (RunPush_run pkg cli ref out w)
    as [(a & e & _ & Hev)|[(a & rc & e & _ & Hev)|(a & rc & _ & Hev)]];
    rewrite Hev in *; among H; simplify_eq/=;
    rewrite ?pushes_sent_relay, ?builds_sent_relay; done.
Qed.

(** X10.  When the daemon refuses the push, the result is the error of
    [ImagePush] wrapped as "pushing image to repository"; the refused request
    ends the run, nothing is written to the sink and no stream is closed. *)
Theorem RunPush_refused pkg cli ref out w pushed options rc e :
  In (EvImagePush pushed options (rc, Some e)) (events_of (RunPush pkg cli ref out) w) ->
  fst (RunPush pkg cli ref out w) = Some (withMessage e "pushing image to repository")
  /\ last (events_of (RunPush pkg cli ref out) w)
     = Some (EvImagePush pushed options (rc, Some e))
  /\ writes (events_of (RunPush pkg cli ref out) w) = []
  /\ streams_closed (events_of (RunPush pkg cli ref out) w) = [].
Proof.
  intros H.
  destruct (RunPush_run pkg cli ref out w)
    as [(a & e' & Hres & Hev)|[(a & rc' & e' & Hres & Hev)|(a & rc' & Hres & Hev)]];
    rewrite Hev, Hres in *; among H; by simplify_eq/=.
Qed.

(** X11.  [RunPush] closes exactly the stream it was handed: the response of
    an accepted push, whether the stream then ends well or in an error, and
    nothing otherwise; and the close is the last thing a run does. *)
Theorem RunPush_closes_the_response pkg cli ref out w :
  streams_closed (events_of (RunPush pkg cli ref out) w)
  = streams_opened (events_of (RunPush pkg cli ref out) w)
  /\ (length (streams_opened (events_of (RunPush pkg cli ref out) w)) <= 1)%nat
  /\ (forall body,
        In (EvClose body) (events_of (RunPush pkg cli ref out) w) ->
        last (events_of (RunPush pkg cli ref out) w) = Some (EvClose body)).
Proof.
  destruct (RunPush_run pkg cli ref out w)
    as [(a & e & _ & Hev)|[(a & rc & e & _ & Hev)|(a & rc & _ & Hev)]];
    rewrite Hev; simpl; rewrite ?streams_closed_relay, ?streams_opened_relay;
    simpl; (split; [done|]); (split; [lia|]); intros body H; among H.
  simplify_eq/=. by rewrite ?last_cons_cons, last_relay.
Qed.


End MorePush.

Section MoreDigest.
Context {St : Type}.
Implicit Types (w : World St) (cli : DockerAPIClient St).

(** ** [Digest] *)

(** X13.  For every reference: when the list the daemon returns holds an
    image that carries the reference followed by ":latest", [Digest] returns
    the identifier of the first such image in the order of the list, whatever
    comes after it, other images with the same tag included. *)
Theorem Digest_first_match cli ref w before image after s :
  ImageList cli (digest_query ref) (ext w)
    = ((before ++ image :: after, None), s) ->
  image_carries (ref +:+ ":latest") image ->
  Forall (fun i => ~ image_carries (ref +:+ ":latest") i) before ->
  fst (Digest cli ref w) = (types.ID image, None).
Proof.
  intros Hlist Hc Hb. destruct (Digest_run cli ref w) as (-> & _ & _).
  rewrite Hlist. simpl. by rewrite scan_images_first.
Qed.

(** X14.  [Digest] looks at nothing but the images that carry the reference
    followed by ":latest": two answers of the daemon that hold the same such
    images in the same order give the same result, whichever other images
    either of them holds.  So the result does not depend on how strictly the
    daemon applies the filter of the query. *)
Theorem Digest_ignores_other_images cli ref w1 w2 list1 list2 s1 s2 :
  ImageList cli (digest_query ref) (ext w1) = ((list1, None), s1) ->
  ImageList cli (digest_query ref) (ext w2) = ((list2, None), s2) ->
  List.filter (has_tag (ref +:+ ":latest")) list1
    = List.filter (has_tag (ref +:+ ":latest")) list2 ->
  fst (Digest cli ref w1) = fst (Digest cli ref w2).
Proof.
  intros H1 H2 Hsame.
  destruct (Digest_run cli ref w1) as (-> & _ & _).
  destruct (Digest_run cli ref w2) as (-> & _ & _).
  rewrite H1, H2. simpl.
  by rewrite <- (scan_images_filter list1), <- (scan_images_filter list2), Hsame.
Qed.

(** X15.  When all the images of the index that carry the reference followed
    by ":latest" have one identifier, as when a single image carries it, the
    result of [Digest] does not depend on the order in which the daemon lists
    the index. *)
Theorem Digest_order_independent cli ref w1 w2 list1 list2 s1 s2 :
  ImageList cli (digest_query ref) (ext w1) = ((list1, None), s1) ->
  ImageList cli (digest_query ref) (ext w2) = ((list2, None), s2) ->
  Permutation list1 list2 ->
  (forall i j, In i list1 -> In j list1 ->
               image_carries (ref +:+ ":latest") i ->
               image_carries (ref +:+ ":latest") j ->
               types.ID i = types.ID j) ->
  fst (Digest cli ref w1) = fst (Digest cli ref w2).
Proof.
  intros H1 H2 Hperm Huniq.
  destruct (Digest_run cli ref w1) as (-> & _ & _).
  destruct (Digest_run cli ref w2) as (-> & _ & _).
  rewrite H1, H2. simpl.
  destruct (scan_images list1 (ref +:+ ":latest")) as [id1|] eqn:E1;
    destruct (scan_images list2 (ref +:+ ":latest")) as [id2|] eqn:E2; try done.
  - apply scan_images_some in E1 as (p1 & i1 & q1 & -> & _ & Hc1 & <-).
    apply scan_images_some in E2 as (p2 & i2 & q2 & -> & _ & Hc2 & <-).
    f_equal. apply Huniq; try done.
    + apply in_or_app. right. by left.
    + apply list_elem_of_In. rewrite Hperm. apply list_elem_of_In.
      apply in_or_app. right. by left.
  - apply scan_images_some in E1 as (p1 & i1 & q1 & -> & _ & Hc1 & <-).
    apply scan_images_none in E2. rewrite Forall_forall in E2.
    destruct (E2 i1); [|done]. rewrite <- Hperm. apply list_elem_of_In.
    apply in_or_app. right. by left.
  - apply scan_images_some in E2 as (p2 & i2 & q2 & -> & _ & Hc2 & <-).
    apply scan_images_none in E1. rewrite Forall_forall in E1.
    destruct (E1 i2); [|done]. rewrite Hperm. apply list_elem_of_In.
    apply in_or_app. right. by left.
Qed.

(** X16.  [Digest] makes one call, the list query filtered on the reference
    followed by ":latest", and nothing else: it writes to no sink and closes
    no stream.  It returns an error exactly when that query returned one, and
    then the identifier it returns is empty and the error carries the step
    "getting image id". *)
Theorem Digest_one_query cli ref w :
  exists imageList err,
    events_of (Digest cli ref) w = [EvImageList (digest_query ref) (imageList, err)]
    /\ (snd (fst (Digest cli ref w)) = None <-> err = None)
    /\ (forall e, err = Some e ->
                  fst (Digest cli ref w) = ("", Some (withMessage e "getting image id"))
                  /\ step_of (EvImageList (digest_query ref) (imageList, err))
                     = Some "getting image id").
Proof.
  destruct (Digest_run cli ref w) as (Hres & Hev & _).
  destruct (ImageList cli (digest_query ref) (ext w)) as [[imageList [e|]] s];
    simpl in *; exists imageList; eexists; (split; [exact Hev|]); rewrite Hres.
  - split; [done|]. by intros e' [= <-].
  - split; [|done]. by destruct (scan_images _ _).
Qed.

End MoreDigest.

(** ** The proto generation script *)

Section Script.
Context {St : Type}.
Implicit Types (h : sh.Host St) (s : St).

(** Each run of the script, by the statuses of its commands. *)
Lemma generate_proto_run h s :
  exists fields cd_status,
    (exists status printed,
        status <> 0 /\ sh.exit_status h s = 1
        /\ sh.commands h s
           = [sh.Cd fields cd_status; sh.Docker sh.build_args None status;
              sh.Printf "\nError generating files.\n" printed])
    \/ (sh.exit_status h s = 1
        /\ sh.commands h s
           = [sh.Cd fields cd_status; sh.Docker sh.build_args None 0;
              sh.Redirect "proto/skaffold.pb.go" false])
    \/ (exists status,
        status <> 0 /\ sh.exit_status h s = status
        /\ sh.commands h s
           = [sh.Cd fields cd_status; sh.Docker sh.build_args None 0;
              sh.Redirect "proto/skaffold.pb.go" true;
              sh.Docker (sh.run_args "/proto/skaffold.pb.go")
                (Some "proto/skaffold.pb.go") status])
    \/ (sh.exit_status h s = 1
        /\ sh.commands h s
           = [sh.Cd fields cd_status; sh.Docker sh.build_args None 0;
              sh.Redirect "proto/skaffold.pb.go" true;
              sh.Docker (sh.run_args "/proto/skaffold.pb.go")
                (Some "proto/skaffold.pb.go") 0;
              sh.Redirect "proto/skaffold.pb.gw.go" false])
    \/ (exists status,
        status <> 0 /\ sh.exit_status h s = status
        /\ sh.commands h s
           = [sh.Cd fields cd_status; sh.Docker sh.build_args None 0;
              sh.Redirect "proto/skaffold.pb.go" true;
              sh.Docker (sh.run_args "/proto/skaffold.pb.go")
                (Some "proto/skaffold.pb.go") 0;
              sh.Redirect "proto/skaffold.pb.gw.go" true;
              sh.Docker (sh.run_args "/proto/skaffold.pb.gw.go")
                (Some "proto/skaffold.pb.gw.go") status])
    \/ (exists printed,
        sh.exit_status h s = printed
        /\ sh.commands h s
           = [sh.Cd fields cd_status; sh.Docker sh.build_args None 0;
              sh.Redirect "proto/skaffold.pb.go" true;
              sh.Docker (sh.run_args "/proto/skaffold.pb.go")
                (Some "proto/skaffold.pb.go") 0;
              sh.Redirect "proto/skaffold.pb.gw.go" true;
              sh.Docker (sh.run_args "/proto/skaffold.pb.gw.go")
                (Some "proto/skaffold.pb.gw.go") 0;
              sh.Printf
                "\nFinished generating proto files, please commit the results.\n"
                printed]).
Proof.
  unfold sh.exit_status, sh.commands, sh.generate_proto.
  set (fields := sh.expand h _ s).
  destruct (sh.cd h fields s) as [cd_status s1].
  exists fields, cd_status.
  destruct (sh.docker h sh.build_args None s1) as [build_status s2].
  destruct (Z.eqb_spec build_status 0) as [->|Hbuild]; simpl.
  2: { destruct (sh.printf h _ s2) as [printed s3]. left. by eexists _, _. }
  right.
  destruct (sh.redirect h "proto/skaffold.pb.go" s2) as [[|] s3]; simpl;
    [right | by left].
  destruct (sh.docker h _ _ s3) as [status1 s4].
  destruct (Z.eqb_spec status1 0) as [->|Hrun1]; simpl.
  2: { left. by eexists. }
  right.
  destruct (sh.redirect h "proto/skaffold.pb.gw.go" s4) as [[|] s5]; simpl;
    [right | by left].
  destruct (sh.docker h _ _ s5) as [status2 s6].
  destruct (Z.eqb_spec status2 0) as [->|Hrun2]; simpl.
  2: { left. by eexists. }
  right. destruct (sh.printf h _ s6) as [printed s7]. by eexists.
Qed.

Ltac script h s :=
  let H := fresh "Hrun" in
  destruct (generate_proto_run h s)
    as (fields & cd_status &
        [(st & printed & Hne0 & Hexit & H)
        |[(Hexit & H)
        |[(st & Hne0 & Hexit & H)
        |[(Hexit & H)
        |[(st & Hne0 & Hexit & H)
        |(printed & Hexit & H)]]]]]);
  rewrite H in *.

(** X17.  When [docker build] fails, with whatever status, the script exits
    with status 1 after printing the error line: no [docker run] is made and
    neither proto file is opened. *)
Theorem generate_proto_build_failure h s args status :
  In (sh.Docker args None status) (sh.commands h s) ->
  status <> 0 ->
  sh.exit_status h s = 1
  /\ exists fields cd_status printed,
      sh.commands h s
      = [sh.Cd fields cd_status;
         sh.Docker sh.build_args None status;
         sh.Printf "\nError generating files.\n" printed].
Proof.
  intros H Hne. script h s; among H; simplify_eq/=.
  split; [done|]. by eexists _, _, _.
Qed.

(** X18.  The script exits with status 0 only after a run in which
    [docker build] and both [docker run] returned 0, both proto files were
    opened for writing, each before the command that fills it, and the final
    line was printed.  The status of [cd] is not looked at. *)
Theorem generate_proto_success h s :
  sh.exit_status h s = 0 ->
  exists fields cd_status,
    sh.commands h s
    = [sh.Cd fields cd_status;
       sh.Docker sh.build_args None 0;
       sh.Redirect "proto/skaffold.pb.go" true;
       sh.Docker (sh.run_args "/proto/skaffold.pb.go") (Some "proto/skaffold.pb.go") 0;
       sh.Redirect "proto/skaffold.pb.gw.go" true;
       sh.Docker (sh.run_args "/proto/skaffold.pb.gw.go")
         (Some "proto/skaffold.pb.gw.go") 0;
       sh.Printf "\nFinished generating proto files, please commit the results.\n" 0].
Proof.
  intros H. script h s; rewrite Hexit in H; simplify_eq/=. by eexists _, _.
Qed.

(** X19.  When a [docker run] fails, the script exits at once with the
    status of that command, and the file the command was to fill has been
    opened for writing, hence created or truncated, before the command ran:
    the earlier content of the file is gone.  When it is the first
    [docker run] that fails, the second proto file is not touched. *)
Theorem generate_proto_failed_run h s args path status :
  In (sh.Docker args (Some path) status) (sh.commands h s) ->
  status <> 0 ->
  sh.exit_status h s = status
  /\ last (sh.commands h s) = Some (sh.Docker args (Some path) status)
  /\ In (sh.Redirect path true) (sh.commands h s)
  /\ (path = "proto/skaffold.pb.go" ->
      forall opened,
        ~ In (sh.Redirect "proto/skaffold.pb.gw.go" opened) (sh.commands h s)).
Proof.
  intros H Hne. script h s; among H; simplify_eq/=.
  - repeat split; [tauto|]. intros _ opened Hin. among Hin.
  - repeat split; [tauto|]. intros [=].
Qed.

(** X20.  The script never looks at the status of [cd]: were [cd] to
    return any other status and leave the same state, the exit status of the
    script and every command after [cd] would be the same.  A directory that
    cannot be entered does not stop the generation. *)
Theorem generate_proto_ignores_cd h s status :
  sh.exit_status (sh.with_cd_status status h) s = sh.exit_status h s
  /\ tail (sh.commands (sh.with_cd_status status h) s) = tail (sh.commands h s).
Proof.
  unfold sh.exit_status, sh.commands, sh.generate_proto, sh.with_cd_status.
  simpl. set (fields := sh.expand h _ s).
  destruct (sh.cd h fields s) as [cd_status s1]. simpl.
  destruct (sh.docker h sh.build_args None s1) as [build_status s2].
  destruct (negb (build_status =? 0)); [by destruct (sh.printf h _ s2)|].
  destruct (sh.redirect h "proto/skaffold.pb.go" s2) as [[|] s3]; [|done].
  simpl. destruct (sh.docker h _ _ s3) as [st1 s4].
  destruct (negb (st1 =? 0)); [done|].
  destruct (sh.redirect h "proto/skaffold.pb.gw.go" s4) as [[|] s5]; [|done].
  simpl. destruct (sh.docker h _ _ s5) as [st2 s6].
  destruct (negb (st2 =? 0)); [done|]. by destruct (sh.printf h _ s6).
Qed.

End Script.

(** ** The further properties at concrete inputs *)

Lemma RunBuild_unreadable_dockerfile_witness :
  let w := fake.start fake.healthy in
  let failure := errorString "no such file or directory" in
  In (EvOpen "/workspace/Dockerfile.dev" ("", Some failure))
     (events_of (RunBuild fake.pkg fake.cli scenario.missing_dockerfile) w)
  /\ fst (RunBuild fake.pkg fake.cli scenario.missing_dockerfile w)
     = Some (withMessage failure "opening dockerfile")
  /\ exists authConfigs,
      events_of (RunBuild fake.pkg fake.cli scenario.missing_dockerfile) w
      = [EvGetAllAuthConfigs (authConfigs, None);
         EvOpen "/workspace/Dockerfile.dev" ("", Some failure)].
Proof.
  intros w failure.
  assert (H : In (EvOpen "/workspace/Dockerfile.dev" ("", Some failure))
                 (events_of (RunBuild fake.pkg fake.cli scenario.missing_dockerfile) w)).
  { vm_compute. right. left. reflexivity. }
  split; [exact H|].
  exact (proj2 (RunBuild_unreadable_dockerfile fake.pkg fake.cli
                  scenario.missing_dockerfile w _ _ _ H)).
Defined.

Lemma RunBuild_refused_build_witness :
  let w := fake.start scenario.refusing in
  let evs := events_of (RunBuild fake.pkg fake.cli fake.opts) w in
  let refused :=
    EvImageBuild
      (build_body fake.opts
         [ {| archive.Name := "main.go"; archive.Uid := 0; archive.Gid := 0 |};
           {| archive.Name := "Dockerfile"; archive.Uid := 0; archive.Gid := 0 |} ])
      (build_request fake.opts ∅)
      ({| types.Body := []; types.OSType := "" |}, Some scenario.invalid_reference) in
  In refused evs
  /\ fst (RunBuild fake.pkg fake.cli fake.opts w)
     = Some (withMessage scenario.invalid_reference "docker build")
  /\ (exists f paths dep_err tarOpts,
      evs = [EvGetAllAuthConfigs (∅, None);
             EvOpen "/workspace/Dockerfile" (f, None);
             EvGetDockerfileDependencies "/workspace" f (paths, dep_err);
             EvTarWithOptions "/workspace" tarOpts
               ([ {| archive.Name := "main.go"; archive.Uid := 0; archive.Gid := 0 |};
                  {| archive.Name := "Dockerfile"; archive.Uid := 0; archive.Gid := 0 |} ],
                None);
             refused])
  /\ streams_closed evs = [].
Proof.
  intros w evs refused.
  assert (H : In refused evs).
  { vm_compute. do 4 right. left. reflexivity. }
  split; [exact H|].
  exact (RunBuild_refused_build fake.pkg fake.cli fake.opts w _ _ _ _ H).
Defined.

Lemma RunBuild_wraps_the_failed_call_witness :
  let w := fake.start scenario.refusing in
  exists ev,
    last (events_of (RunBuild fake.pkg fake.cli fake.opts) w) = Some ev
    /\ error_of ev = Some scenario.invalid_reference
    /\ fst (RunBuild fake.pkg fake.cli fake.opts w)
       = Some (withMessage scenario.invalid_reference "docker build")
    /\ Error (withMessage scenario.invalid_reference "docker build")
       = "docker build: Error response from daemon: invalid reference format".
Proof.
  intros w. eexists.
  assert (Hlast : last (events_of (RunBuild fake.pkg fake.cli fake.opts) w)
                  = Some (EvImageBuild
                    (build_body fake.opts
                       [ {| archive.Name := "main.go"; archive.Uid := 0; archive.Gid := 0 |};
                         {| archive.Name := "Dockerfile"; archive.Uid := 0; archive.Gid := 0 |} ])
                    (build_request fake.opts ∅)
                    ({| types.Body := []; types.OSType := "" |},
                     Some scenario.invalid_reference)))
    by (vm_compute; reflexivity).
  split; [exact Hlast|]. split; [reflexivity|].
  destruct (RunBuild_wraps_the_failed_call fake.pkg fake.cli fake.opts w _
              scenario.invalid_reference Hlast eq_refl)
    as (step & Hstep & _ & Hres & Hmsg & _).
  simpl in Hstep. injection Hstep as <-. split; [exact Hres | exact Hmsg].
Defined.


Lemma RunBuild_nil_result_witness :
  let w := fake.start fake.healthy in
  fst (RunBuild fake.pkg fake.cli fake.opts w) = None
  /\ exists body options resp,
      In (EvImageBuild body options (resp, None))
         (events_of (RunBuild fake.pkg fake.cli fake.opts) w)
      /\ written_to "build" (events_of (RunBuild fake.pkg fake.cli fake.opts) w)
         = types.Body resp.
Proof.
  intros w.
  assert (H : fst (RunBuild fake.pkg fake.cli fake.opts w) = None)
    by (vm_compute; reflexivity).
  split; [exact H|].
  exact (proj2 (RunBuild_nil_result fake.pkg fake.cli fake.opts w H)).
Defined.

Lemma RunBuild_request_provenance_witness :
  let w := fake.start scenario.with_credentials in
  let evs := events_of (RunBuild fake.pkg fake.cli fake.opts) w in
  exists body options ret,
    In (EvImageBuild body options ret) evs
    /\ types.AuthConfigs options = scenario.gcr_credentials
    /\ exists f paths dep_err tarOpts,
        take 5 evs
        = [EvGetAllAuthConfigs (scenario.gcr_credentials, None);
           EvOpen "/workspace/Dockerfile" (f, None);
           EvGetDockerfileDependencies "/workspace" f (paths, dep_err);
           EvTarWithOptions "/workspace" tarOpts (progress.in_ body, None);
           EvImageBuild body options ret]
        /\ streamformatter.out (progress.out body) = "progress".
Proof.
  intros w evs.
  exists (build_body fake.opts
            [ {| archive.Name := "main.go"; archive.Uid := 0; archive.Gid := 0 |};
              {| archive.Name := "Dockerfile"; archive.Uid := 0; archive.Gid := 0 |} ]),
         (build_request fake.opts scenario.gcr_credentials),
         (fake.build_answer scenario.with_credentials).
  assert (H : In (EvImageBuild
                    (build_body fake.opts
                       [ {| archive.Name := "main.go"; archive.Uid := 0; archive.Gid := 0 |};
                         {| archive.Name := "Dockerfile"; archive.Uid := 0; archive.Gid := 0 |} ])
                    (build_request fake.opts scenario.gcr_credentials)
                    (fake.build_answer scenario.with_credentials)) evs).
  { vm_compute. do 4 right. left. reflexivity. }
  split; [exact H|]. split; [reflexivity|].
  exact (RunBuild_request_provenance fake.pkg fake.cli fake.opts w _ _ _ H).
Defined.

Lemma RunBuild_includes_come_from_paths_witness :
  let w := fake.start scenario.with_credentials in
  let evs := events_of (RunBuild fake.pkg fake.cli fake.opts) w in
  let tarOpts :=
    {| archive.IncludeFiles := ["/main.go"; "vendor/lib.go"; "Dockerfile"];
       archive.ChownOpts := Some fake.root |} in
  exists ret,
    In (EvTarWithOptions "/workspace" tarOpts ret) evs
    /\ exists f paths dep_err includes,
        In (EvGetDockerfileDependencies "/workspace" f (paths, dep_err)) evs
        /\ archive.IncludeFiles tarOpts = includes ++ ["Dockerfile"]
        /\ Forall2 (fun path include =>
                      (strings.HasPrefix path "/workspace" = false /\ include = path)
                      \/ path = "/workspace" +:+ include)
             paths includes.
Proof.
  intros w evs tarOpts.
  exists ([ {| archive.Name := "main.go"; archive.Uid := 0; archive.Gid := 0 |};
            {| archive.Name := "Dockerfile"; archive.Uid := 0; archive.Gid := 0 |} ],
          None).
  assert (H : In (EvTarWithOptions "/workspace" tarOpts
                    ([ {| archive.Name := "main.go"; archive.Uid := 0; archive.Gid := 0 |};
                       {| archive.Name := "Dockerfile"; archive.Uid := 0; archive.Gid := 0 |} ],
                     None)) evs).
  { vm_compute. do 3 right. left. reflexivity. }
  split; [exact H|].
  exact (proj2 (proj2
    (RunBuild_includes_come_from_paths fake.pkg fake.cli fake.opts w _ _ _ H))).
Defined.

Lemma RunPush_request_witness :
  let w := fake.start scenario.with_credentials in
  let evs := events_of (RunPush fake.pkg fake.cli "gcr.io/project/web" "push-log") w in
  let options := {| types.RegistryAuth := "eyJ1c2VybmFtZSI6Il9qc29uX2tleSJ9" |} in
  In (EvImagePush "gcr.io/project/web" options (fake.ok_stream, None)) evs
  /\ pushes_sent evs = [("gcr.io/project/web", options)]
  /\ builds_sent evs = [].
Proof.
  intros w evs options.
  assert (H : In (EvImagePush "gcr.io/project/web" options (fake.ok_stream, None)) evs).
  { vm_compute. right. left. reflexivity. }
  split; [exact H|].
  exact (proj2 (proj2
    (RunPush_request fake.pkg fake.cli "gcr.io/project/web" "push-log" w _ _ _ H))).
Defined.

Lemma RunPush_refused_witness :
  let w := fake.start scenario.refusing in
  let evs := events_of (RunPush fake.pkg fake.cli "gcr.io/project/web" "push-log") w in
  fst (RunPush fake.pkg fake.cli "gcr.io/project/web" "push-log" w)
    = Some (withMessage scenario.access_denied "pushing image to repository")
  /\ writes evs = []
  /\ streams_closed evs = [].
Proof.
  intros w evs.
  assert (H : In (EvImagePush "gcr.io/project/web" {| types.RegistryAuth := "e30=" |}
                    ([], Some scenario.access_denied)) evs).
  { vm_compute. right. left. reflexivity. }
  destruct (RunPush_refused fake.pkg fake.cli "gcr.io/project/web" "push-log" w
              _ _ _ _ H) as (Hres & _ & Hwrites & Hclosed).
  by repeat split.
Defined.


Lemma Digest_first_match_witness :
  let newer := {| types.ID := "sha256:dddd"; types.RepoTags := ["web:latest"] |} in
  let index := [scenario.db; scenario.web; scenario.old_web; newer] in
  let w := fake.start (fake.with_index index None fake.healthy) in
  ImageList fake.unfiltered_cli (digest_query "web") (ext w) = ((index, None), ext w)
  /\ fst (Digest fake.unfiltered_cli "web" w) = ("sha256:aaaa", None).
Proof.
  intros newer index w.
  assert (H : ImageList fake.unfiltered_cli (digest_query "web") (ext w)
              = (([scenario.db] ++ scenario.web :: [scenario.old_web; newer], None),
                 ext w)) by reflexivity.
  split; [exact H|].
  apply (Digest_first_match fake.unfiltered_cli "web" w _ _ _ _ H).
  - right. left. reflexivity.
  - constructor; [|constructor]. intros [Hc|[]]. discriminate Hc.
Defined.

Lemma Digest_ignores_other_images_witness :
  let w1 := fake.start (fake.with_index
                          [scenario.db; scenario.web; scenario.old_web] None
                          fake.healthy) in
  let w2 := fake.start (fake.with_index [scenario.web] None fake.healthy) in
  fst (Digest fake.unfiltered_cli "web" w1) = fst (Digest fake.unfiltered_cli "web" w2)
  /\ fst (Digest fake.unfiltered_cli "web" w2) = ("sha256:aaaa", None).
Proof.
  intros w1 w2. split; [|vm_compute; reflexivity].
  apply (Digest_ignores_other_images fake.unfiltered_cli "web" w1 w2
           [scenario.db; scenario.web; scenario.old_web] [scenario.web]
           (ext w1) (ext w2)); reflexivity.
Defined.

Lemma Digest_order_independent_witness :
  let index := [scenario.db; scenario.web; scenario.old_web] in
  let w1 := fake.start (fake.with_index index None fake.healthy) in
  let w2 := fake.start (fake.with_index (rev index) None fake.healthy) in
  fst (Digest fake.unfiltered_cli "web" w1) = fst (Digest fake.unfiltered_cli "web" w2).
Proof.
  intros index w1 w2.
  apply (Digest_order_independent fake.unfiltered_cli "web" w1 w2
           index (rev index) (ext w1) (ext w2)); [reflexivity | reflexivity | |].
  - apply Permutation_rev.
  - intros i j Hi Hj Hci Hcj.
    destruct Hi as [<-|[<-|[<-|[]]]]; destruct Hj as [<-|[<-|[<-|[]]]];
      try reflexivity;
      repeat (destruct Hci as [Hci|Hci]; [discriminate Hci|]);
      repeat (destruct Hcj as [Hcj|Hcj]; [discriminate Hcj|]);
      try destruct Hci; try destruct Hcj.
Defined.

Lemma generate_proto_build_failure_witness :
  In (sh.Docker sh.build_args None 125) (sh.commands sh.scripted [125])
  /\ sh.exit_status sh.scripted [125] = 1
  /\ exists fields cd_status printed,
      sh.commands sh.scripted [125]
      = [sh.Cd fields cd_status; sh.Docker sh.build_args None 125;
         sh.Printf "\nError generating files.\n" printed].
Proof.
  assert (H : In (sh.Docker sh.build_args None 125) (sh.commands sh.scripted [125])).
  { vm_compute. right. left. reflexivity. }
  split; [exact H|].
  apply (generate_proto_build_failure sh.scripted [125] _ 125 H). lia.
Defined.

Lemma generate_proto_success_witness :
  sh.exit_status sh.scripted [0; 0; 0] = 0
  /\ exists fields cd_status,
      sh.commands sh.scripted [0; 0; 0]
      = [sh.Cd fields cd_status;
         sh.Docker sh.build_args None 0;
         sh.Redirect "proto/skaffold.pb.go" true;
         sh.Docker (sh.run_args "/proto/skaffold.pb.go") (Some "proto/skaffold.pb.go") 0;
         sh.Redirect "proto/skaffold.pb.gw.go" true;
         sh.Docker (sh.run_args "/proto/skaffold.pb.gw.go")
           (Some "proto/skaffold.pb.gw.go") 0;
         sh.Printf "\nFinished generating proto files, please commit the results.\n" 0].
Proof.
  assert (H : sh.exit_status sh.scripted [0; 0; 0] = 0) by reflexivity.
  split; [exact H|]. exact (generate_proto_success sh.scripted [0; 0; 0] H).
Defined.

Lemma generate_proto_failed_run_witness :
  let failed := sh.Docker (sh.run_args "/proto/skaffold.pb.go")
                  (Some "proto/skaffold.pb.go") 1 in
  In failed (sh.commands sh.scripted [0; 1; 0])
  /\ sh.exit_status sh.scripted [0; 1; 0] = 1
  /\ last (sh.commands sh.scripted [0; 1; 0]) = Some failed
  /\ In (sh.Redirect "proto/skaffold.pb.go" true) (sh.commands sh.scripted [0; 1; 0])
  /\ forall opened,
      ~ In (sh.Redirect "proto/skaffold.pb.gw.go" opened)
           (sh.commands sh.scripted [0; 1; 0]).
Proof.
  intros failed.
  assert (H : In failed (sh.commands sh.scripted [0; 1; 0])).
  { vm_compute. do 3 right. left. reflexivity. }
  split; [exact H|].
  destruct (generate_proto_failed_run sh.scripted [0; 1; 0] _ _ 1 H)
    as (Hexit & Hlast & Hopen & Hsecond); [lia|].
  split; [exact Hexit|]. split; [exact Hlast|]. split; [exact Hopen|].
  exact (Hsecond eq_refl).
Defined.
